(** * advPoints.py: special points of Vedic astrology

    A shallow embedding of [src/advPoints.py] and the properties of its
    arithmetic layer: angle normalisation, the positional decoder
    (sign / nakshatra / pada / degree-minute-second) and the Gulika and
    Mandi tables.

    The program is written once, over an interface [PyFloat] that names
    the operations Python applies to a [float].  Two instances follow:

    - [B64]: IEEE-754 binary64 with round-to-nearest-even, the arithmetic
      CPython executes;
    - [Exact]: the rationals, the real-number reading of the formulas.

    The ephemeris glue ([compute_special_points]) reads the clock and the
    Swiss Ephemeris and is outside the embedding. *)

From Stdlib Require Import ZArith QArith Qround Lia Lqa Bool.
From Stdlib Require Import String DecimalString List.
From Stdlib Require Import Floats.SpecFloat.
From stdpp Require Import gmap.

Local Open Scope Z_scope.

(** ** The Python run time the program relies on *)

Module Py.

(** The built-in exceptions the arithmetic layer can raise. *)
Inductive exn :=
| IndexError
| KeyError (key : Z)
| ValueError
| OverflowError
| ZeroDivisionError.

(** A computation either returns a value or raises. *)
Inductive result (A : Type) :=
| Ok (a : A)
| Raise (e : exn).
Arguments Ok {A} a.
Arguments Raise {A} e.

#[global] Instance result_ret : MRet result := fun A a => Ok a.
#[global] Instance result_bind : MBind result := fun A B k c =>
  match c with
  | Ok a => k a
  | Raise e => Raise e
  end.

Definition succeeds {A} (c : result A) : Prop := exists a, c = Ok a.

(** [l[i]] on a list: a negative index counts from the end, anything
    outside [-len, len) raises [IndexError]. *)
Definition getitem {A} (l : list A) (i : Z) : result A :=
  let len := Z.of_nat (List.length l) in
  let j := if i <? 0 then i + len else i in
  if (0 <=? j) && (j <? len) then
    match List.nth_error l (Z.to_nat j) with
    | Some a => Ok a
    | None => Raise IndexError
    end
  else Raise IndexError.

(** [d[k]] on a dict with integer keys: a missing key raises [KeyError]. *)
Definition dict_getitem (d : gmap Z Z) (k : Z) : result Z :=
  match d !! k with
  | Some v => Ok v
  | None => Raise (KeyError k)
  end.

(** [str(n)] for an integer, as an f-string field formats it. *)
Definition str_of_int (n : Z) : string := NilZero.string_of_int (Z.to_int n).

End Py.
Export Py.

(** ** The operations of a Python float *)

Class PyFloat (F : Type) := {
  (** [float(n)], the implicit conversion of an int operand *)
  py_float : Z -> F;
  py_add : F -> F -> F;
  py_sub : F -> F -> F;
  py_mul : F -> F -> F;
  (** [x / y] raises [ZeroDivisionError] on a zero divisor *)
  py_truediv : F -> F -> result F;
  (** [x % y], with the sign of the divisor *)
  py_mod : F -> F -> result F;
  (** [x // y] *)
  py_floordiv : F -> F -> result F;
  (** [int(x)] truncates towards zero; it raises on nan and infinities *)
  py_int : F -> result Z
}.

(** ** Constants *)

Definition ZODIAC_SIGNS : list string :=
  [ "Aries"; "Taurus"; "Gemini"; "Cancer"; "Leo"; "Virgo";
    "Libra"; "Scorpio"; "Sagittarius"; "Capricorn"; "Aquarius"; "Pisces" ]%string.

Definition NAKSHATRAS : list string :=
  [ "Ashwini"; "Bharani"; "Krittika"; "Rohini"; "Mrigashira"; "Ardra";
    "Punarvasu"; "Pushya"; "Ashlesha"; "Magha"; "Purva Phalguni"; "Uttara Phalguni";
    "Hasta"; "Chitra"; "Swati"; "Vishakha"; "Anuradha"; "Jyeshtha"; "Mula";
    "Purva Ashadha"; "Uttara Ashadha"; "Shravana"; "Dhanishta"; "Shatabhisha";
    "Purva Bhadrapada"; "Uttara Bhadrapada"; "Revati" ]%string.

(** ** The program *)

Section Program.
Context {F : Type} `{PyFloat F}.

(** An int operand of a float operation is converted first: [# n] is
    [float(n)]. *)
Local Notation "# n" := (py_float n) (at level 1, n at level 0, format "# n").

(** [a / b] on two ints is the correctly rounded quotient; for the small
    literals of this program both operands convert exactly, so it is the
    float division of the converted operands. *)
Definition int_truediv (a b : Z) : result F := py_truediv (py_float a) (py_float b).

(** *** Utilities *)

Definition normalize_deg (deg : F) : result F :=
  py_mod deg #360.

(** Line 33: the pada, with its two reductions by the nakshatra span,
    [int(((degree % (360 / 27)) % (360 / 27)) / (360 / 108)) + 1]. *)
Definition pada_double_mod (degree : F) : result Z :=
  nak_span1 ← int_truediv 360 27;
  r1 ← py_mod degree nak_span1;
  nak_span2 ← int_truediv 360 27;
  r2 ← py_mod r1 nak_span2;
  pada_span ← int_truediv 360 108;
  q ← py_truediv r2 pada_span;
  p ← py_int q;
  mret (p + 1).

(** The values [deg_to_zodiac] computes before it builds its tuple:
    the two list indices are kept next to the names they select. *)
Record decoded := {
  zodiac_index : Z;
  zodiac : string;
  nak_index : Z;
  nakshatra : string;
  pada : Z;
  sign_degree : F
}.

Definition deg_to_zodiac_full (degree : F) : result decoded :=
  degree ← normalize_deg degree;
  q ← py_floordiv degree #30;
  zodiac_index ← py_int q;
  zodiac ← getitem ZODIAC_SIGNS zodiac_index;
  sign_degree ← py_mod degree #30;
  r ← py_mod degree #360;
  nak_span ← int_truediv 360 27;
  qn ← py_truediv r nak_span;
  nak_index ← py_int qn;
  nakshatra ← getitem NAKSHATRAS nak_index;
  pada ← pada_double_mod degree;
  mret {| zodiac_index := zodiac_index; zodiac := zodiac;
          nak_index := nak_index; nakshatra := nakshatra;
          pada := pada; sign_degree := sign_degree |}.

Definition deg_to_zodiac (degree : F) : result (string * string * Z * F) :=
  r ← deg_to_zodiac_full degree;
  mret (zodiac r, nakshatra r, pada r, sign_degree r).

(** The three integers [format_result] prints. *)
Definition dms_of (sign_degree : F) : result (Z * Z * Z) :=
  d ← py_int sign_degree;
  m ← py_int (py_mul (py_sub sign_degree #d) #60);
  s ← py_int (py_mul (py_sub (py_mul (py_sub sign_degree #d) #60) #m) #60);
  mret (d, m, s).

Definition dms_str (dms : Z * Z * Z) : string :=
  let '(d, m, s) := dms in
  (str_of_int d ++ "°" ++ str_of_int m ++ "′" ++ str_of_int s ++ "″")%string.

Definition format_result (deg : F) : result (string * string * string * Z) :=
  deg ← normalize_deg deg;
  '(zodiac, nakshatra, pada, sign_degree) ← deg_to_zodiac deg;
  dms ← dms_of sign_degree;
  mret (dms_str dms, zodiac, nakshatra, pada).

(** *** Core point calculations *)

Definition calc_bhrigu_bindu (moon_deg rahu_deg : F) :=
  q ← py_truediv (py_add moon_deg rahu_deg) #2;
  format_result q.

Definition calc_prana_sphuta (lagna_deg sun_deg moon_deg : F) :=
  format_result (py_add (py_add lagna_deg sun_deg) moon_deg).

Definition calc_deha_sphuta (lagna_deg sun_deg moon_deg : F) :=
  format_result (py_sub (py_add lagna_deg moon_deg) sun_deg).

Definition calc_mrityu_sphuta (lagna_deg sun_deg moon_deg : F) :=
  format_result (py_sub (py_add lagna_deg sun_deg) moon_deg).

Definition calc_tithi_sphuta (sun_deg moon_deg : F) :=
  format_result (py_add sun_deg moon_deg).

Definition calc_chatusphuta (lagna sun moon gulika : F) :=
  format_result (py_add (py_add (py_add lagna sun) moon) gulika).

Definition calc_panchasphuta (lagna sun moon gulika mandi : F) :=
  format_result (py_add (py_add (py_add (py_add lagna sun) moon) gulika) mandi).

Definition calc_yoga_sphuta (sun moon : F) :=
  format_result (py_add sun moon).

(** The degree [calc_avayoga_sphuta] hands to [format_result]. *)
Definition avayoga_deg (sun moon : F) : result F :=
  m ← py_mod (py_add sun moon) #360;
  mret (py_sub #360 m).

Definition calc_avayoga_sphuta (sun moon : F) :=
  a ← avayoga_deg sun moon;
  format_result a.

Definition gulika_portions : gmap Z Z :=
  {[ 0 := 7; 1 := 6; 2 := 5; 3 := 4; 4 := 3; 5 := 2; 6 := 1 ]}.

Definition mandi_portions : gmap Z Z :=
  {[ 0 := 6; 1 := 5; 2 := 4; 3 := 3; 4 := 2; 5 := 1; 6 := 0 ]}.

Definition calc_gulika (weekday : Z) (sunrise_deg : F) : result F :=
  portion ← dict_getitem gulika_portions weekday;
  span ← int_truediv 720 8;
  let offset_min := py_mul #portion span in
  q ← py_truediv offset_min #4;
  normalize_deg (py_add sunrise_deg q).

Definition calc_mandi (weekday : Z) (sunrise_deg : F) : result F :=
  portion ← dict_getitem mandi_portions weekday;
  span ← int_truediv 720 8;
  let offset_min := py_mul #portion span in
  q ← py_truediv offset_min #4;
  normalize_deg (py_add sunrise_deg q).

(** *** The report

    [compute_special_points] reads the wall clock and asks Swiss
    Ephemeris for four sidereal longitudes at that moment: the ascendant
    and the positions of the Sun, the Moon and the mean node.  Everything
    it does with them is a function of [now_ist.weekday()] and of those
    four floats, which are the arguments here. *)
Record ephemeris := {
  lagna : F;
  degs_Sun : F;
  degs_Moon : F;
  degs_Rahu : F
}.

(** The dict the function returns, as the list of its items in insertion
    order; the values of a dict display are computed from left to
    right. *)
Definition compute_special_points (weekday : Z) (eph : ephemeris)
  : result (list (string * (string * string * string * Z))) :=
  let sunrise_deg := #90 in
  gulika_deg ← calc_gulika weekday sunrise_deg;
  mandi_deg ← calc_mandi weekday sunrise_deg;
  gulika ← format_result gulika_deg;
  mandi ← format_result mandi_deg;
  bhrigu ← calc_bhrigu_bindu (degs_Moon eph) (degs_Rahu eph);
  prana ← calc_prana_sphuta (lagna eph) (degs_Sun eph) (degs_Moon eph);
  deha ← calc_deha_sphuta (lagna eph) (degs_Sun eph) (degs_Moon eph);
  mrityu ← calc_mrityu_sphuta (lagna eph) (degs_Sun eph) (degs_Moon eph);
  tithi ← calc_tithi_sphuta (degs_Sun eph) (degs_Moon eph);
  chatu ← calc_chatusphuta (lagna eph) (degs_Sun eph) (degs_Moon eph) gulika_deg;
  pancha ← calc_panchasphuta (lagna eph) (degs_Sun eph) (degs_Moon eph)
             gulika_deg mandi_deg;
  yoga ← calc_yoga_sphuta (degs_Sun eph) (degs_Moon eph);
  avayoga ← calc_avayoga_sphuta (degs_Sun eph) (degs_Moon eph);
  mret [ ("Gulika", gulika); ("Mandi", mandi); ("Bhrigu Bindu", bhrigu);
         ("Prana Sphuta", prana); ("Deha Sphuta", deha);
         ("Mrityu Sphuta", mrityu); ("Tithi Sphuta", tithi);
         ("Chatusphuta", chatu); ("PanchaSphuta", pancha);
         ("Yoga Sphuta", yoga); ("Avayoga Sphuta", avayoga) ]%string.

End Program.

(** A tuple [format_result] is meant to return: degrees below 30, minutes
    and seconds below 60, a sign and a nakshatra of the two lists, a pada
    from 1 to 4. *)
Definition formatted (r : string * string * string * Z) : Prop :=
  let '(dms, zs, nk, p) := r in
  (exists d m s, dms = dms_str (d, m, s)
     /\ 0 <= d <= 29 /\ 0 <= m <= 59 /\ 0 <= s <= 59)
  /\ List.In zs ZODIAC_SIGNS /\ List.In nk NAKSHATRAS /\ 1 <= p <= 4.

(** ** Binary64: the floats CPython computes with

    Every finite binary64 number is an integer multiple of [2^-1074], the
    smallest subnormal.  A finite float is kept as that integer, so the
    float 1.0 is [Fin (2^1074)].  An operation computes its exact result
    as a fraction of such units and rounds it to the nearest float, ties
    to even.  The sign of a zero is not kept: [-0.0 == 0.0] in Python, and
    the program neither divides by a computed value nor prints a float. *)

Module B64.

Inductive t :=
| Fin (n : Z)
| Inf (neg : bool)
| NaN.

Definition E : Z := 1074.
(** The float 1.0, in units of [2^-1074]. *)
Definition U : Z := 2 ^ E.
(** [2^1024] in the same units: a rounded magnitude that reaches it
    overflows to an infinity. *)
Definition HUGE : Z := 2 ^ (1024 + E).

(** The integer nearest to [n / d], ties to even ([0 < d]). *)
Definition rne (n d : Z) : Z :=
  let (q, r) := Z.div_eucl n d in
  match 2 * r ?= d with
  | Lt => q
  | Gt => q + 1
  | Eq => if Z.even q then q else q + 1
  end.

(** The floats around [n / d] are [2^shift_of n d] units apart: one unit
    up to [2^53] units (subnormals and the first binade), then doubling
    with every binade.  The shift is [max 0 (log2 (|n| / d) - 52)]
    ([shift_of_spec]); the binary logarithm of the quotient is read off
    the lengths of [n] and [d], which saves a long division. *)
Definition shift_of (n d : Z) : Z :=
  let l := Z.log2 (Z.abs n) - Z.log2 d in
  Z.max 0 ((if d * 2 ^ l <=? Z.abs n then l else l - 1) - 52).

(** [n / d] units rounded to 53 significant bits, before the overflow
    test. *)
Definition round_units (n d : Z) : Z :=
  let sh := shift_of n d in rne n (d * 2 ^ sh) * 2 ^ sh.

Definition round (n d : Z) : t :=
  let v := round_units n d in
  if HUGE <=? v then Inf false
  else if v <=? - HUGE then Inf true
  else Fin v.

(** A finite float: at most 53 significant bits, below the overflow
    threshold. *)
Definition representable (n : Z) : Prop :=
  exists m k, n = m * 2 ^ k /\ Z.abs m < 2 ^ 53 /\ 0 <= k /\ Z.abs n < HUGE.

(** [float(z)] for an int, and the float a decimal literal [n / d]
    denotes. *)
Definition of_int (z : Z) : t := round (z * U) 1.
Definition of_dec (n d : Z) : t := round (n * U) d.

Definition opp (x : t) : t :=
  match x with
  | Fin a => Fin (- a)
  | Inf s => Inf (negb s)
  | NaN => NaN
  end.

Definition add (x y : t) : t :=
  match x, y with
  | Fin a, Fin b => round (a + b) 1
  | NaN, _ | _, NaN => NaN
  | Inf s, Inf s' => if Bool.eqb s s' then Inf s else NaN
  | Inf s, Fin _ | Fin _, Inf s => Inf s
  end.

Definition sub (x y : t) : t := add x (opp y).

Definition mul (x y : t) : t :=
  match x, y with
  | Fin a, Fin b => round (a * b) U
  | NaN, _ | _, NaN => NaN
  | Inf s, Inf s' => Inf (xorb s s')
  | Inf s, Fin b | Fin b, Inf s =>
      if b =? 0 then NaN else Inf (xorb s (b <? 0))
  end.

(** C's [/] on doubles.  Both callers test the divisor against zero
    first, so the quotient by zero (an infinity whose sign is that of the
    zero) is never computed; it is [NaN] here. *)
Definition div (x y : t) : t :=
  match x, y with
  | Fin a, Fin b =>
      if b =? 0 then NaN else round (a * U * Z.sgn b) (Z.abs b)
  | NaN, _ | _, NaN => NaN
  | Inf _, Inf _ => NaN
  | Inf s, Fin b => Inf (xorb s (b <? 0))
  | Fin _, Inf _ => Fin 0
  end.

Definition is_zero (x : t) : bool :=
  match x with Fin 0 => true | _ => false end.

(** [x < 0]: false on nan. *)
Definition ltz (x : t) : bool :=
  match x with
  | Fin a => a <? 0
  | Inf s => s
  | NaN => false
  end.

(** [x > y]: false as soon as an operand is nan. *)
Definition gt (x y : t) : bool :=
  match x, y with
  | Fin a, Fin b => b <? a
  | NaN, _ | _, NaN => false
  | Inf s, Inf s' => negb s && s'
  | Inf s, Fin _ => negb s
  | Fin _, Inf s => s
  end.

(** C's [fmod]: exact, with the sign of the dividend. *)
Definition fmod (x y : t) : t :=
  match x, y with
  | Fin a, Fin b => if b =? 0 then NaN else Fin (Z.rem a b)
  | NaN, _ | _, NaN => NaN
  | Inf _, _ => NaN
  | Fin a, Inf _ => Fin a
  end.

(** C's [floor]. *)
Definition floor (x : t) : t :=
  match x with
  | Fin a => Fin (a / U * U)
  | _ => x
  end.

(** [float_rem] of CPython's floatobject.c: the remainder of [fmod],
    moved by one divisor when its sign differs from the divisor's. *)
Definition float_rem (vx wx : t) : result t :=
  if is_zero wx then Raise ZeroDivisionError
  else
    let mod_ := fmod vx wx in
    if negb (is_zero mod_) then
      if negb (Bool.eqb (ltz wx) (ltz mod_)) then Ok (add mod_ wx)
      else Ok mod_
    else Ok (Fin 0).

(** [float_floor_div], through [_float_div_mod] of floatobject.c. *)
Definition float_floor_div (vx wx : t) : result t :=
  if is_zero wx then Raise ZeroDivisionError
  else
    let mod_ := fmod vx wx in
    let div0 := div (sub vx mod_) wx in
    let div_ :=
      if negb (is_zero mod_) && negb (Bool.eqb (ltz wx) (ltz mod_))
      then sub div0 (of_int 1) else div0 in
    if negb (is_zero div_) then
      let floordiv := floor div_ in
      if gt (sub div_ floordiv) (of_dec 5 10)
      then Ok (add floordiv (of_int 1))
      else Ok floordiv
    else Ok (Fin 0).

Definition float_div (vx wx : t) : result t :=
  if is_zero wx then Raise ZeroDivisionError else Ok (div vx wx).

(** [int(x)]: truncation; [ValueError] on nan, [OverflowError] on an
    infinity. *)
Definition float_int (x : t) : result Z :=
  match x with
  | Fin a => Ok (Z.quot a U)
  | Inf _ => Raise OverflowError
  | NaN => Raise ValueError
  end.

(** The nakshatra span [360 / 27] and the pada span [360 / 108] as
    floats: 0x1.aaaaaaaaaaaabp+3 and 0x1.aaaaaaaaaaaabp+1. *)
Definition NAK : Z := 7505999378950827 * 2 ^ 1025.
Definition PADA : Z := 7505999378950827 * 2 ^ 1023.

(** The largest float below 360, [360 - 2^-44]. *)
Definition BELOW_360 : Z := 360 * U - 2 ^ 1030.

(** [2^-40] of a degree: sums of multiples of it below 1024 are exact. *)
Definition FINE : Z := 2 ^ 1034.

(** The value of a finite float, in units of [2^-1074]. *)
Definition units (x : t) : Z :=
  match x with
  | Fin n => n
  | _ => 0
  end.

(** The spacing of the floats just below 1.0, [2^-53]. *)
Definition EPS : Z := 2 ^ 1021.

(** [2^-45]: half the spacing of the floats just below 360. *)
Definition TINY : Z := 2 ^ 1029.

(** A finite float from 0 to 360: a longitude as Swiss Ephemeris returns
    it. *)
Definition longitude (x : t) : Prop :=
  match x with
  | Fin a => representable a /\ 0 <= a <= 360 * U
  | _ => False
  end.

(** A value of the type [float]: an infinity, nan, or a finite number
    with at most 53 significant bits. *)
Definition float (x : t) : Prop :=
  match x with
  | Fin n => representable n
  | _ => True
  end.

(** What [normalize_deg] can return: a finite float from 0 to 360, both
    ends included, or nan. *)
Inductive normalized : t -> Prop :=
| normalized_fin r : 0 <= r <= 360 * U -> normalized (Fin r)
| normalized_nan : normalized NaN.

#[global] Instance py : PyFloat t := {|
  py_float := of_int;
  py_add := add;
  py_sub := sub;
  py_mul := mul;
  py_truediv := float_div;
  py_mod := float_rem;
  py_floordiv := float_floor_div;
  py_int := float_int
|}.

(** The same numbers in the Standard Library's specification of IEEE-754
    floats, to compare the operations above with [SFadd], [SFmul] and
    [SFdiv] at binary64's parameters. *)
Definition to_spec (x : t) : spec_float :=
  match x with
  | Fin n => binary_normalize 53 1024 n (- E) false
  | Inf s => S754_infinity s
  | NaN => S754_nan
  end.

End B64.

(** ** Exact arithmetic: the formulas over the rationals

    The same operations without rounding, overflow or nan: what the
    formulas of the program mean over the reals. *)

Module Exact.

Definition t := Q.

Definition of_int (z : Z) : Q := inject_Z z.

(** [x // y] and [x % y]: [x = (x // y) * y + x % y] with the remainder
    on the side of the divisor. *)
Definition floor_quot (x y : Q) : Z := Qfloor (x / y).
Definition rem (x y : Q) : Q := (x - inject_Z (floor_quot x y) * y)%Q.

(** Truncation towards zero. *)
Definition trunc (x : Q) : Z := if Qle_bool 0 x then Qfloor x else Qceiling x.

Definition is_zero (x : Q) : bool := Qeq_bool x 0.

Definition float_rem (x y : Q) : result Q :=
  if is_zero y then Raise ZeroDivisionError else Ok (rem x y).

Definition float_floor_div (x y : Q) : result Q :=
  if is_zero y then Raise ZeroDivisionError else Ok (inject_Z (floor_quot x y)).

Definition float_div (x y : Q) : result Q :=
  if is_zero y then Raise ZeroDivisionError else Ok (x / y)%Q.

Definition float_int (x : Q) : result Z := Ok (trunc x).

#[global] Instance py : PyFloat Q := {|
  py_float := of_int;
  py_add := Qplus;
  py_sub := Qminus;
  py_mul := Qmult;
  py_truediv := float_div;
  py_mod := float_rem;
  py_floordiv := float_floor_div;
  py_int := float_int
|}.

End Exact.

(** ** The specification's wording of some computations *)

Section Specification.
Context {F : Type} `{PyFloat F}.

(** The portion tables as the specification lists them. *)
Definition gulika_portion_table (weekday : Z) : Z :=
  match weekday with
  | 0 => 7 | 1 => 6 | 2 => 5 | 3 => 4 | 4 => 3 | 5 => 2 | 6 => 1
  | _ => 0
  end.

Definition mandi_portion_table (weekday : Z) : Z :=
  match weekday with
  | 0 => 6 | 1 => 5 | 2 => 4 | 3 => 3 | 4 => 2 | 5 => 1 | 6 => 0
  | _ => 0
  end.

(** [normalize(s + portion * (720/8) / 4)]. *)
Definition temporal_point (portion : Z) (sunrise_deg : F) : result F :=
  span ← int_truediv 720 8;
  q ← py_truediv (py_mul (py_float portion) span) (py_float 4);
  normalize_deg (py_add sunrise_deg q).

(** The pada with one reduction by the nakshatra span:
    [floor((degree % nakSpan) / padaSpan) + 1]. *)
Definition pada_single_mod (degree : F) : result Z :=
  nak_span ← int_truediv 360 27;
  r ← py_mod degree nak_span;
  pada_span ← int_truediv 360 108;
  q ← py_truediv r pada_span;
  p ← py_int q;
  mret (p + 1).

(** [deg_to_zodiac] with the single-modulo pada in place of line 33. *)
Definition deg_to_zodiac_single_mod (degree : F) : result (string * string * Z * F) :=
  degree ← normalize_deg degree;
  q ← py_floordiv degree (py_float 30);
  zodiac_index ← py_int q;
  zodiac ← getitem ZODIAC_SIGNS zodiac_index;
  sign_degree ← py_mod degree (py_float 30);
  r ← py_mod degree (py_float 360);
  nak_span ← int_truediv 360 27;
  qn ← py_truediv r nak_span;
  nak_index ← py_int qn;
  nakshatra ← getitem NAKSHATRAS nak_index;
  pada ← pada_single_mod degree;
  mret (zodiac, nakshatra, pada, sign_degree).

End Specification.

(** * Properties *)

(** ** The result monad and the portion tables *)

Lemma bind_ok {A B} (a : A) (f : A -> result B) : (Ok a ≫= f) = f a.
Proof. reflexivity. Qed.

Lemma bind_raise {A B} (e : exn) (f : A -> result B) : (Raise e ≫= f) = Raise e.
Proof. reflexivity. Qed.

Ltac run := repeat (rewrite bind_ok || rewrite bind_raise).

Ltac step c := destruct c; run; [|reflexivity].

Lemma gulika_portions_lookup w :
  gulika_portions !! w = if (0 <=? w) && (w <=? 6) then Some (7 - w) else None.
Proof.
  unfold gulika_portions.
  destruct (Z.leb_spec 0 w), (Z.leb_spec w 6); simpl.
  - assert (Hw : w = 0 \/ w = 1 \/ w = 2 \/ w = 3 \/ w = 4 \/ w = 5 \/ w = 6) by lia.
    destruct Hw as [->|[->|[->|[->|[->|[->| ->]]]]]]; reflexivity.
  - repeat (rewrite lookup_insert_ne by lia). apply lookup_singleton_ne. lia.
  - repeat (rewrite lookup_insert_ne by lia). apply lookup_singleton_ne. lia.
  - lia.
Qed.

Lemma mandi_portions_lookup w :
  mandi_portions !! w = if (0 <=? w) && (w <=? 6) then Some (6 - w) else None.
Proof.
  unfold mandi_portions.
  destruct (Z.leb_spec 0 w), (Z.leb_spec w 6); simpl.
  - assert (Hw : w = 0 \/ w = 1 \/ w = 2 \/ w = 3 \/ w = 4 \/ w = 5 \/ w = 6) by lia.
    destruct Hw as [->|[->|[->|[->|[->|[->| ->]]]]]]; reflexivity.
  - repeat (rewrite lookup_insert_ne by lia). apply lookup_singleton_ne. lia.
  - repeat (rewrite lookup_insert_ne by lia). apply lookup_singleton_ne. lia.
  - lia.
Qed.

(** Inside the table the two calculators are the specification's formula
    at the tabulated portion. *)
Lemma calc_by_table (F : Type) (PF : PyFloat F) (weekday : Z) (sunrise_deg : F) :
  0 <= weekday <= 6 ->
  calc_gulika weekday sunrise_deg
    = temporal_point (gulika_portion_table weekday) sunrise_deg
  /\ calc_mandi weekday sunrise_deg
    = temporal_point (mandi_portion_table weekday) sunrise_deg.
Proof.
  intros Hw.
  assert (Hc : weekday = 0 \/ weekday = 1 \/ weekday = 2 \/ weekday = 3
               \/ weekday = 4 \/ weekday = 5 \/ weekday = 6) by lia.
  unfold calc_gulika, calc_mandi, dict_getitem.
  rewrite gulika_portions_lookup, mandi_portions_lookup.
  split; destruct Hc as [->|[->|[->|[->|[->|[->| ->]]]]]]; reflexivity.
Qed.

(** ** Rounding to binary64 *)

Module B64Facts.
Import B64.

Lemma rne_eq n d :
  rne n d = match 2 * (n mod d) ?= d with
            | Lt => n / d
            | Gt => n / d + 1
            | Eq => if Z.even (n / d) then n / d else n / d + 1
            end.
Proof.
  unfold rne, Z.div, Z.modulo. destruct (Z.div_eucl n d); reflexivity.
Qed.

Lemma rne_le n d z : 0 < d -> n <= z * d -> rne n d <= z.
Proof.
  intros Hd Hn. rewrite rne_eq.
  pose proof (Z.div_mod n d ltac:(lia)) as Hdm.
  pose proof (Z.mod_pos_bound n d Hd) as Hr.
  assert (n / d <= z) by nia.
  destruct (Z.compare_spec (2 * (n mod d)) d); [|lia|]; try destruct (Z.even (n / d)); nia.
Qed.

Lemma rne_ge n d z : 0 < d -> z * d <= n -> z <= rne n d.
Proof.
  intros Hd Hn. rewrite rne_eq.
  pose proof (Z.div_mod n d ltac:(lia)) as Hdm.
  pose proof (Z.mod_pos_bound n d Hd) as Hr.
  assert (z <= n / d) by nia.
  destruct (Z.compare_spec (2 * (n mod d)) d); try destruct (Z.even (n / d)); lia.
Qed.

Lemma rne_exact k d : 0 < d -> rne (k * d) d = k.
Proof.
  intros Hd. apply Z.le_antisymm; [apply rne_le | apply rne_ge]; lia.
Qed.

Lemma rne_error n d : 0 < d -> 2 * Z.abs (rne n d * d - n) <= d.
Proof.
  intros Hd. rewrite rne_eq.
  pose proof (Z.div_mod n d ltac:(lia)) as Hdm.
  pose proof (Z.mod_pos_bound n d Hd) as Hr.
  destruct (Z.compare_spec (2 * (n mod d)) d); try destruct (Z.even (n / d)); nia.
Qed.

Lemma shift_of_nonneg n d : 0 <= shift_of n d.
Proof. unfold shift_of. lia. Qed.

Lemma log2_quotient a d :
  0 < d -> d <= a ->
  Z.log2 (a / d)
  = if d * 2 ^ (Z.log2 a - Z.log2 d) <=? a
    then Z.log2 a - Z.log2 d else Z.log2 a - Z.log2 d - 1.
Proof.
  intros Hd Ha.
  set (q := a / d). set (l := Z.log2 a - Z.log2 d).
  assert (Hq : 0 < q) by (apply Z.div_str_pos; lia).
  pose proof (Z.log2_spec q Hq) as [Hq1 Hq2].
  pose proof (Z.log2_spec a ltac:(lia)) as [Ha1 Ha2].
  pose proof (Z.log2_spec d Hd) as [Hd1 Hd2].
  pose proof (Z.log2_nonneg q) as HL. pose proof (Z.log2_nonneg d) as HLd.
  pose proof (Z.log2_le_mono d a Ha) as Hmono.
  pose proof (Z.mul_div_le a d Hd) as Hlo. fold q in Hlo.
  pose proof (Z.mul_succ_div_gt a d Hd) as Hhi. fold q in Hhi.
  assert (Hl0 : 0 <= l) by (unfold l; lia).
  assert (Hp : forall x, 0 <= x -> 0 < 2 ^ x) by (intros; apply Z.pow_pos_nonneg; lia).
  pose proof (Hp (Z.log2 q) HL). pose proof (Hp (Z.log2 d) HLd). pose proof (Hp l Hl0).
  (* the quotient lies between the two candidates *)
  assert (Hup : Z.log2 q <= l).
  { assert (2 ^ (Z.log2 q + Z.log2 d) < 2 ^ Z.succ (Z.log2 a)).
    { rewrite Z.pow_add_r by lia. nia. }
    apply Z.pow_lt_mono_r_iff in H2; unfold l; lia. }
  assert (Hdn : l - 1 <= Z.log2 q).
  { assert (2 ^ Z.log2 a < 2 ^ (Z.succ (Z.log2 d) + Z.succ (Z.log2 q))).
    { rewrite Z.pow_add_r by lia. nia. }
    apply Z.pow_lt_mono_r_iff in H2; unfold l; lia. }
  destruct (Z.leb_spec (d * 2 ^ l) a) as [Hc|Hc].
  - (* [2^l <= q] *)
    assert (Z.log2 q = l \/ Z.log2 q = l - 1) as [|He] by lia; [assumption|exfalso].
    rewrite He in Hq2. replace (Z.succ (l - 1)) with l in Hq2 by lia. nia.
  - assert (Z.log2 q = l \/ Z.log2 q = l - 1) as [He|] by lia; [exfalso|assumption].
    rewrite He in Hq1. nia.
Qed.

(** The shift, from the quotient itself. *)
Lemma shift_of_spec n d :
  0 < d -> shift_of n d = Z.max 0 (Z.log2 (Z.abs n / d) - 52).
Proof.
  intros Hd. unfold shift_of. set (a := Z.abs n).
  assert (Ha : 0 <= a) by apply Z.abs_nonneg.
  destruct (Z_lt_le_dec a d) as [Hlt|Hge].
  - rewrite Z.div_small by lia. change (Z.log2 0) with 0.
    assert (Z.log2 a <= Z.log2 d) by (apply Z.log2_le_mono; lia).
    destruct (_ <=? _); lia.
  - rewrite (log2_quotient a d Hd Hge). destruct (_ <=? _); lia.
Qed.

(** Above the first binade the magnitude fixes the spacing. *)
Lemma shift_of_pos n d :
  0 < d -> 0 < shift_of n d -> 2 ^ (shift_of n d + 52) * d <= Z.abs n.
Proof.
  intros Hd Hs. rewrite shift_of_spec in * by assumption.
  set (q := Z.abs n / d) in *.
  assert (Hq : 0 < q).
  { destruct (Z.eq_dec q 0) as [->|]; [simpl in Hs; lia|].
    assert (0 <= q) by (apply Z.div_pos; lia). lia. }
  pose proof (Z.log2_spec q Hq) as [Hlo _].
  replace (Z.max 0 (Z.log2 q - 52) + 52) with (Z.log2 q) by lia.
  pose proof (Z.mul_div_le (Z.abs n) d Hd). fold q in H. nia.
Qed.

Lemma shift_of_small n d k :
  0 < d -> 0 <= k -> Z.abs n < 2 ^ (k + 53) * d -> shift_of n d <= k.
Proof.
  intros Hd Hk Hn.
  destruct (Z_le_gt_dec (shift_of n d) k) as [|Hgt]; [assumption|exfalso].
  pose proof (shift_of_pos n d Hd ltac:(lia)) as Hlo.
  assert (2 ^ (k + 53) <= 2 ^ (shift_of n d + 52)) by (apply Z.pow_le_mono_r; lia).
  nia.
Qed.

(** Rounding never crosses a float: a representable bound on the exact
    value bounds the rounded one. *)
Lemma round_units_le n d m k :
  0 < d -> 0 <= k -> Z.abs m < 2 ^ 53 -> n <= m * 2 ^ k * d ->
  round_units n d <= m * 2 ^ k.
Proof.
  intros Hd Hk Hm Hn. unfold round_units.
  set (sh := shift_of n d).
  assert (Hsh0 : 0 <= sh) by apply shift_of_nonneg.
  assert (Hp : 0 < 2 ^ sh) by (apply Z.pow_pos_nonneg; lia).
  destruct (Z_le_gt_dec sh k) as [Hle|Hgt].
  - replace (2 ^ k) with (2 ^ (k - sh) * 2 ^ sh) in *
      by (rewrite <- Z.pow_add_r by lia; f_equal; lia).
    assert (rne n (d * 2 ^ sh) <= m * 2 ^ (k - sh)); [|nia].
    apply rne_le; [nia|lia].
  - (* the value lies in a binade beyond the bound: it is negative *)
    pose proof (shift_of_pos n d Hd ltac:(fold sh; lia)) as Hlo. fold sh in Hlo.
    assert (Hpk : 0 < 2 ^ k) by (apply Z.pow_pos_nonneg; lia).
    assert (Hkk : 2 ^ (k + 53) <= 2 ^ (sh + 52)) by (apply Z.pow_le_mono_r; lia).
    rewrite Z.pow_add_r in Hkk by lia.
    assert (Hneg : n < 0).
    { destruct (Z_lt_le_dec n 0); [assumption|exfalso].
      rewrite Z.abs_eq in Hlo by lia.
      assert (m * 2 ^ k < 2 ^ k * 2 ^ 53) by nia. nia. }
    rewrite Z.abs_neq in Hlo by lia.
    assert (rne n (d * 2 ^ sh) <= - 2 ^ 52).
    { apply rne_le; [nia|]. rewrite Z.pow_add_r in Hlo by lia. nia. }
    assert (- 2 ^ 53 * 2 ^ k < m * 2 ^ k) by nia.
    replace (2 ^ sh) with (2 ^ (sh - k - 1) * 2 ^ (k + 1)) in *
      by (rewrite <- Z.pow_add_r by lia; f_equal; lia).
    assert (0 < 2 ^ (sh - k - 1)) by (apply Z.pow_pos_nonneg; lia).
    rewrite (Z.pow_add_r 2 k 1) in * by lia. change (2 ^ 1) with 2 in *.
    nia.
Qed.

Lemma rne_opp n d : 0 < d -> rne (- n) d = - rne n d.
Proof.
  intros Hd. rewrite !rne_eq.
  pose proof (Z.div_mod n d ltac:(lia)) as Hdm.
  pose proof (Z.mod_pos_bound n d Hd) as Hr.
  destruct (Z.eq_dec (n mod d) 0) as [H0|H0].
  - assert (Hq : (- n) / d = - (n / d))
      by (symmetry; apply (Z.div_unique _ _ _ 0); lia).
    assert (Hm : (- n) mod d = 0)
      by (symmetry; apply (Z.mod_unique _ _ (- (n / d))); lia).
    rewrite Hq, Hm, H0. simpl. destruct d; lia.
  - assert (Hq : (- n) / d = - (n / d) - 1)
      by (symmetry; apply (Z.div_unique _ _ _ (d - n mod d)); lia).
    assert (Hm : (- n) mod d = d - n mod d)
      by (symmetry; apply (Z.mod_unique _ _ (- (n / d) - 1)); lia).
    rewrite Hq, Hm.
    replace (- (n / d) - 1) with (- (n / d + 1)) by lia.
    rewrite Z.even_opp, Z.even_add. simpl (Z.even 1).
    destruct (Z.compare_spec (2 * (d - n mod d)) d),
             (Z.compare_spec (2 * (n mod d)) d); try lia;
      destruct (Z.even (n / d)); simpl; lia.
Qed.

Lemma shift_of_opp n d : shift_of (- n) d = shift_of n d.
Proof. unfold shift_of. now rewrite Z.abs_opp. Qed.

Lemma round_units_opp n d : 0 < d -> round_units (- n) d = - round_units n d.
Proof.
  intros Hd. unfold round_units. rewrite shift_of_opp.
  assert (0 < 2 ^ shift_of n d)
    by (apply Z.pow_pos_nonneg; [lia|apply shift_of_nonneg]).
  rewrite rne_opp by nia. lia.
Qed.

Lemma round_units_ge n d m k :
  0 < d -> 0 <= k -> Z.abs m < 2 ^ 53 -> m * 2 ^ k * d <= n ->
  m * 2 ^ k <= round_units n d.
Proof.
  intros Hd Hk Hm Hn.
  pose proof (round_units_le (- n) d (- m) k Hd Hk) as Hle.
  rewrite round_units_opp in Hle by assumption.
  rewrite Z.abs_opp in Hle. specialize (Hle Hm). nia.
Qed.

Lemma round_units_exact d m k :
  0 < d -> 0 <= k -> Z.abs m < 2 ^ 53 ->
  round_units (m * 2 ^ k * d) d = m * 2 ^ k.
Proof.
  intros Hd Hk Hm. apply Z.le_antisymm;
    [apply round_units_le | apply round_units_ge]; auto; lia.
Qed.

Lemma round_units_nonneg n d : 0 < d -> 0 <= n -> 0 <= round_units n d.
Proof.
  intros Hd Hn. apply (round_units_ge n d 0 0); simpl; lia.
Qed.

Lemma round_units_nonpos n d : 0 < d -> n <= 0 -> round_units n d <= 0.
Proof.
  intros Hd Hn. apply (round_units_le n d 0 0); simpl; lia.
Qed.

Lemma HUGE_pos : 0 < HUGE.
Proof. reflexivity. Qed.

Lemma U_pos : 0 < U.
Proof. reflexivity. Qed.

(** A result between two floats is finite. *)
Lemma round_between n d lo klo hi khi :
  0 < d -> 0 <= klo -> 0 <= khi -> Z.abs lo < 2 ^ 53 -> Z.abs hi < 2 ^ 53 ->
  - HUGE < lo * 2 ^ klo -> hi * 2 ^ khi < HUGE ->
  lo * 2 ^ klo * d <= n <= hi * 2 ^ khi * d ->
  exists v, round n d = Fin v /\ v = round_units n d /\ lo * 2 ^ klo <= v <= hi * 2 ^ khi.
Proof.
  intros Hd Hkl Hkh Hlo Hhi Hl Hh [Hn1 Hn2].
  pose proof (round_units_le n d hi khi Hd Hkh Hhi Hn2).
  pose proof (round_units_ge n d lo klo Hd Hkl Hlo Hn1).
  exists (round_units n d). unfold round.
  destruct (Z.leb_spec HUGE (round_units n d)); [lia|].
  destruct (Z.leb_spec (round_units n d) (- HUGE)); [lia|].
  auto.
Qed.

Lemma round_exact n : representable n -> round n 1 = Fin n.
Proof.
  intros (m & k & -> & Hm & Hk & Hn). unfold round.
  assert (Hr : round_units (m * 2 ^ k) 1 = m * 2 ^ k).
  { pose proof (round_units_exact 1 m k) as Hx.
    rewrite Z.mul_1_r in Hx. apply Hx; lia. }
  rewrite Hr.
  destruct (Z.leb_spec HUGE (m * 2 ^ k)); [lia|].
  destruct (Z.leb_spec (m * 2 ^ k) (- HUGE)); [lia|]. reflexivity.
Qed.

Lemma shift_of_eq n d k :
  0 < d -> 0 <= k -> 2 ^ (k + 52) * d <= Z.abs n < 2 ^ (k + 53) * d ->
  shift_of n d = k.
Proof.
  intros Hd Hk [Hlo Hhi]. rewrite shift_of_spec by assumption.
  assert (Hq : 2 ^ (k + 52) <= Z.abs n / d < 2 ^ (k + 53)).
  { split; [apply Z.div_le_lower_bound | apply Z.div_lt_upper_bound]; lia. }
  assert (0 < 2 ^ (k + 52)) by (apply Z.pow_pos_nonneg; lia).
  assert (Z.log2 (Z.abs n / d) = k + 52); [|lia].
  apply Z.log2_unique; [lia|].
  replace (Z.succ (k + 52)) with (k + 53) by lia. assumption.
Qed.

Lemma rne_near n d z :
  0 < d -> 2 * Z.abs (n - z * d) <= d -> Z.even z = true -> rne n d = z.
Proof.
  intros Hd Hn Hz. rewrite rne_eq.
  pose proof (Z.div_mod n d ltac:(lia)) as Hdm.
  pose proof (Z.mod_pos_bound n d Hd) as Hr.
  assert (Hq : n / d = z \/ n / d = z - 1) by nia.
  destruct Hq as [Hq|Hq]; rewrite Hq in *.
  - rewrite Hz. destruct (Z.compare_spec (2 * (n mod d)) d); nia.
  - replace (Z.even (z - 1)) with false
      by (rewrite Z.even_sub, Hz; reflexivity).
    destruct (Z.compare_spec (2 * (n mod d)) d); nia.
Qed.

Lemma of_int_small z : Z.abs z < 2 ^ 53 -> of_int z = Fin (z * U).
Proof.
  intros Hz. apply round_exact. exists z, E. unfold U.
  repeat split; try lia; [unfold E; lia|].
  change HUGE with (2 ^ 1024 * 2 ^ E). assert (0 < 2 ^ E) by reflexivity. nia.
Qed.

Lemma float_rem_nonneg a b :
  0 <= a -> 0 < b -> float_rem (Fin a) (Fin b) = Ok (Fin (a mod b)).
Proof.
  intros Ha Hb. unfold float_rem, fmod.
  assert (is_zero (Fin b) = false) as -> by (destruct b; try lia; reflexivity).
  destruct (Z.eqb_spec b 0); [lia|].
  rewrite Z.rem_mod_nonneg by lia.
  pose proof (Z.mod_pos_bound a b Hb) as Hr.
  destruct (Z.eq_dec (a mod b) 0) as [->|Hnz]; [reflexivity|].
  assert (is_zero (Fin (a mod b)) = false) as ->
    by (destruct (a mod b); try lia; reflexivity).
  simpl. destruct (Z.ltb_spec b 0), (Z.ltb_spec (a mod b) 0); try lia. reflexivity.
Qed.

(** The remainder by a positive float is a finite float between zero and
    the divisor, the divisor included: a negative remainder of [fmod] is
    moved up by a rounded addition. *)
Lemma float_rem_range a m k :
  0 <= k -> 0 < m < 2 ^ 53 -> m * 2 ^ k < HUGE ->
  exists r, float_rem (Fin a) (Fin (m * 2 ^ k)) = Ok (Fin r) /\ 0 <= r <= m * 2 ^ k.
Proof.
  intros Hk Hm Hh. set (b := m * 2 ^ k).
  assert (Hb : 0 < b) by (assert (0 < 2 ^ k) by (apply Z.pow_pos_nonneg; lia); nia).
  destruct (Z_le_gt_dec 0 a) as [Ha|Ha].
  - rewrite float_rem_nonneg by lia. eexists; split; [reflexivity|].
    pose proof (Z.mod_pos_bound a b Hb). lia.
  - unfold float_rem, fmod.
    assert (is_zero (Fin b) = false) as -> by (destruct b; try lia; reflexivity).
    destruct (Z.eqb_spec b 0); [lia|].
    pose proof (Z.rem_bound_pos_neg a b Hb ltac:(lia)) as Hr.
    destruct (Z.eq_dec (Z.rem a b) 0) as [->|Hnz].
    { exists 0. simpl. split; [reflexivity|lia]. }
    assert (is_zero (Fin (Z.rem a b)) = false) as ->
      by (destruct (Z.rem a b); try lia; reflexivity).
    simpl. destruct (Z.ltb_spec b 0), (Z.ltb_spec (Z.rem a b) 0); try lia. simpl.
    pose proof HUGE_pos as HH.
    destruct (round_between (Z.rem a b + b) 1 0 0 m k) as (v & Hv & _ & Hrange);
      try (subst b; lia).
    exists v. split; [now rewrite Hv|subst b; lia].
Qed.
Lemma nak_span_float : int_truediv (F := B64.t) 360 27 = Ok (Fin NAK).
Proof. vm_compute. reflexivity. Qed.

Lemma pada_span_float : int_truediv (F := B64.t) 360 108 = Ok (Fin PADA).
Proof. vm_compute. reflexivity. Qed.

Lemma day_portion_float : int_truediv (F := B64.t) 720 8 = Ok (Fin (90 * U)).
Proof. vm_compute. reflexivity. Qed.

(** The operations of the class at the binary64 instance. *)
Lemma py_float_eq z : py_float z = of_int z.
Proof. reflexivity. Qed.
Lemma py_add_eq (x y : B64.t) : py_add x y = add x y.
Proof. reflexivity. Qed.
Lemma py_sub_eq (x y : B64.t) : py_sub x y = sub x y.
Proof. reflexivity. Qed.
Lemma py_mul_eq (x y : B64.t) : py_mul x y = mul x y.
Proof. reflexivity. Qed.
Lemma py_truediv_eq (x y : B64.t) : py_truediv x y = float_div x y.
Proof. reflexivity. Qed.
Lemma py_mod_eq (x y : B64.t) : py_mod x y = float_rem x y.
Proof. reflexivity. Qed.
Lemma py_floordiv_eq (x y : B64.t) : py_floordiv x y = float_floor_div x y.
Proof. reflexivity. Qed.
Lemma py_int_eq (x : B64.t) : py_int x = float_int x.
Proof. reflexivity. Qed.

Lemma normalize_deg_eq (x : B64.t) : normalize_deg x = float_rem x (Fin (360 * U)).
Proof.
  unfold normalize_deg. rewrite py_mod_eq, py_float_eq.
  rewrite of_int_small by lia. reflexivity.
Qed.

Lemma normalize_deg_nonneg a :
  0 <= a -> normalize_deg (Fin a) = Ok (Fin (a mod (360 * U))).
Proof.
  intros Ha. rewrite normalize_deg_eq. apply float_rem_nonneg; [assumption|].
  pose proof U_pos. lia.
Qed.

Lemma normalize_deg_fin a :
  exists r, normalize_deg (Fin a) = Ok (Fin r) /\ 0 <= r <= 360 * U.
Proof.
  rewrite normalize_deg_eq. unfold U.
  apply float_rem_range; [unfold E; lia|lia|reflexivity].
Qed.

Lemma float_rem_nan b : 0 < b -> float_rem NaN (Fin b) = Ok NaN.
Proof.
  intros Hb. unfold float_rem.
  assert (is_zero (Fin b) = false) as -> by (destruct b; try lia; reflexivity).
  unfold fmod, is_zero, ltz.
  destruct (Z.ltb_spec b 0); [lia|]. reflexivity.
Qed.

Lemma float_rem_inf s b : 0 < b -> float_rem (Inf s) (Fin b) = Ok NaN.
Proof.
  intros Hb. unfold float_rem.
  assert (is_zero (Fin b) = false) as -> by (destruct b; try lia; reflexivity).
  unfold fmod, is_zero, ltz.
  destruct (Z.ltb_spec b 0); [lia|]. reflexivity.
Qed.

Lemma normalize_deg_normalized (x : B64.t) :
  exists y, normalize_deg x = Ok y /\ normalized y.
Proof.
  destruct x as [a|s|].
  - destruct (normalize_deg_fin a) as (r & Hr & Hb). exists (Fin r).
    split; [assumption|now constructor].
  - exists NaN. rewrite normalize_deg_eq, float_rem_inf; [split; [reflexivity|constructor]|].
    pose proof U_pos; lia.
  - exists NaN. rewrite normalize_deg_eq, float_rem_nan; [split; [reflexivity|constructor]|].
    pose proof U_pos; lia.
Qed.

Lemma NAK_pos : 0 < NAK.
Proof. reflexivity. Qed.

Lemma PADA_pos : 0 < PADA.
Proof. reflexivity. Qed.

Lemma pada_mod_collapses (y : B64.t) :
  normalized y -> pada_double_mod y = pada_single_mod y.
Proof.
  intros Hy. unfold pada_double_mod, pada_single_mod.
  rewrite nak_span_float. run. rewrite !py_mod_eq.
  pose proof NAK_pos.
  destruct Hy as [r Hr|].
  - rewrite float_rem_nonneg by lia. run. rewrite py_mod_eq.
    rewrite float_rem_nonneg by (try apply Z.mod_pos_bound; lia).
    rewrite Z.mod_mod by lia. run. reflexivity.
  - rewrite float_rem_nan by lia. run. rewrite py_mod_eq.
    rewrite float_rem_nan by lia. run. reflexivity.
Qed.

Lemma deg_to_zodiac_collapses (x : B64.t) :
  deg_to_zodiac x = deg_to_zodiac_single_mod x.
Proof.
  unfold deg_to_zodiac, deg_to_zodiac_full, deg_to_zodiac_single_mod.
  destruct (normalize_deg_normalized x) as (y & -> & Hy). run.
  step (py_floordiv y (py_float 30)).
  step (py_int a).
  step (getitem ZODIAC_SIGNS a0).
  step (py_mod y (py_float 30)).
  step (py_mod y (py_float 360)).
  step (int_truediv (F := B64.t) 360 27).
  step (py_truediv a3 a4).
  step (py_int a5).
  step (getitem NAKSHATRAS a6).
  rewrite (pada_mod_collapses y Hy).
  destruct (pada_single_mod y); run; reflexivity.
Qed.

Lemma add_fin a b : add (Fin a) (Fin b) = round (a + b) 1.
Proof. reflexivity. Qed.

Lemma sub_fin a b : sub (Fin a) (Fin b) = round (a - b) 1.
Proof. reflexivity. Qed.

Lemma mul_fin a b : mul (Fin a) (Fin b) = round (a * b) U.
Proof. reflexivity. Qed.

Lemma div_fin_pos a b : 0 < b -> div (Fin a) (Fin b) = round (a * U) b.
Proof.
  intros Hb. unfold div. destruct (Z.eqb_spec b 0); [lia|].
  rewrite Z.sgn_pos, Z.abs_eq by lia. now rewrite Z.mul_1_r.
Qed.

Lemma is_zero_fin a : is_zero (Fin a) = (a =? 0).
Proof. destruct a; reflexivity. Qed.

Lemma HUGE_eq : HUGE = 2 ^ 1024 * U.
Proof. reflexivity. Qed.

Lemma float_rem_succeeds x b : b <> 0 -> succeeds (float_rem x (Fin b)).
Proof.
  intros Hb. unfold float_rem, succeeds.
  assert (is_zero (Fin b) = false) as -> by (destruct b; try lia; reflexivity).
  destruct (negb (is_zero (fmod x (Fin b)))); [|eauto].
  destruct (negb _); eauto.
Qed.

Lemma normalize_deg_succeeds (x : B64.t) : succeeds (normalize_deg x).
Proof.
  rewrite normalize_deg_eq. apply float_rem_succeeds.
  pose proof U_pos. lia.
Qed.

Lemma temporal_point_succeeds (p : Z) (s : B64.t) : succeeds (temporal_point p s).
Proof.
  pose proof U_pos. unfold temporal_point. rewrite day_portion_float. run.
  rewrite py_truediv_eq, (py_float_eq 4), (of_int_small 4) by lia.
  unfold float_div. rewrite is_zero_fin.
  destruct (Z.eqb_spec (4 * U) 0); [lia|]. run.
  apply normalize_deg_succeeds.
Qed.

(** Rounding between two small integers, in units of the float 1.0. *)
Lemma round_in n d lo hi :
  0 < d -> Z.abs lo < 2 ^ 53 -> Z.abs hi < 2 ^ 53 ->
  lo * U * d <= n <= hi * U * d ->
  exists v, round n d = Fin v /\ lo * U <= v <= hi * U.
Proof.
  intros Hd Hlo Hhi Hn. pose proof U_pos. pose proof HUGE_eq.
  destruct (round_between n d lo E hi E) as (v & Hv & _ & Hr);
    try assumption; try (unfold E; lia); fold U; try nia.
  exists v. split; assumption.
Qed.

(** An exactly representable quotient is not rounded. *)
Lemma round_int n d z :
  0 < d -> Z.abs z < 2 ^ 53 -> n = z * U * d -> round n d = Fin (z * U).
Proof.
  intros Hd Hz ->. pose proof U_pos. pose proof HUGE_eq.
  assert (Hr : round_units (z * U * d) d = z * U)
    by (unfold U; apply round_units_exact; unfold E; lia).
  unfold round. rewrite Hr.
  destruct (Z.leb_spec HUGE (z * U)); [nia|].
  destruct (Z.leb_spec (z * U) (- HUGE)); [nia|]. reflexivity.
Qed.

Lemma half_float : of_dec 5 10 = Fin (2 ^ 1073).
Proof. vm_compute. reflexivity. Qed.

(** Floor division by thirty degrees of a non-negative float. *)
Lemma float_floor_div_30 a :
  0 <= a -> a / (30 * U) < 2 ^ 47 ->
  float_floor_div (Fin a) (Fin (30 * U)) = Ok (Fin (a / (30 * U) * U)).
Proof.
  intros Ha Hk. pose proof U_pos as HU.
  set (k := a / (30 * U)) in *.
  assert (Hk0 : 0 <= k) by (apply Z.div_pos; lia).
  pose proof (Z.div_mod a (30 * U) ltac:(lia)) as Hdm. fold k in Hdm.
  pose proof (Z.mod_pos_bound a (30 * U) ltac:(lia)) as Hm.
  unfold float_floor_div, fmod.
  rewrite !is_zero_fin.
  destruct (Z.eqb_spec (30 * U) 0); [lia|].
  rewrite Z.rem_mod_nonneg by lia.
  rewrite sub_fin.
  rewrite (round_int (a - a mod (30 * U)) 1 (30 * k)) by lia.
  rewrite div_fin_pos by lia.
  rewrite (round_int (30 * k * U * U) (30 * U) k) by lia.
  unfold ltz.
  destruct (Z.ltb_spec (30 * U) 0); [lia|].
  destruct (Z.ltb_spec (a mod (30 * U)) 0); [lia|].
  rewrite andb_false_r. rewrite is_zero_fin.
  destruct (Z.eqb_spec (k * U) 0) as [Hz|Hz].
  - rewrite Hz. reflexivity.
  - unfold floor. rewrite Z.div_mul by lia. rewrite sub_fin, Z.sub_diag.
    rewrite (round_int 0 1 0) by lia. rewrite half_float.
    reflexivity.
Qed.

Lemma getitem_in_range {A} (l : list A) i :
  0 <= i < Z.of_nat (List.length l) ->
  exists a, getitem l i = Ok a /\ List.nth_error l (Z.to_nat i) = Some a.
Proof.
  intros Hi. unfold getitem.
  destruct (Z.ltb_spec i 0); [lia|].
  destruct (Z.leb_spec 0 i); [|lia].
  destruct (Z.ltb_spec i (Z.of_nat (List.length l))); [|lia].
  cbn [andb].
  destruct (List.nth_error l (Z.to_nat i)) as [a|] eqn:Hn.
  - exists a. split; reflexivity.
  - apply List.nth_error_None in Hn. lia.
Qed.

Lemma getitem_past_end {A} (l : list A) i :
  Z.of_nat (List.length l) <= i -> getitem l i = Raise IndexError.
Proof.
  intros Hi. unfold getitem.
  destruct (Z.ltb_spec i 0); [lia|].
  destruct (Z.ltb_spec i (Z.of_nat (List.length l))); [lia|].
  now rewrite andb_false_r.
Qed.

Lemma float_int_nonneg v : 0 <= v -> float_int (Fin v) = Ok (v / U).
Proof.
  intros Hv. unfold float_int. rewrite Z.quot_div_nonneg; [reflexivity|lia|].
  apply U_pos.
Qed.

Lemma float_div_between a b lo hi :
  0 < b -> Z.abs lo < 2 ^ 53 -> Z.abs hi < 2 ^ 53 ->
  lo * U * b <= a * U <= hi * U * b ->
  exists v, float_div (Fin a) (Fin b) = Ok (Fin v) /\ lo * U <= v <= hi * U.
Proof.
  intros Hb Hlo Hhi Hn. unfold float_div. rewrite is_zero_fin.
  destruct (Z.eqb_spec b 0); [lia|]. rewrite div_fin_pos by lia.
  destruct (round_in (a * U) b lo hi) as (v & -> & Hv); try assumption.
  exists v. split; [reflexivity|assumption].
Qed.

Lemma NAK_lo : 40 * U < 3 * NAK.
Proof. reflexivity. Qed.

Lemma NAK_hi : 3 * NAK < 41 * U.
Proof. reflexivity. Qed.

Lemma NAK_PADA : NAK = 4 * PADA.
Proof. reflexivity. Qed.

(** The pada of a non-negative degree: no step raises, whatever the
    remainder. *)
Lemma pada_single_mod_fin a :
  0 <= a ->
  exists v, float_div (Fin (a mod NAK)) (Fin PADA) = Ok (Fin v) /\ 0 <= v <= 4 * U
    /\ pada_single_mod (Fin a) = Ok (v / U + 1).
Proof.
  intros Ha. pose proof NAK_pos. pose proof PADA_pos. pose proof U_pos.
  pose proof NAK_PADA. pose proof (Z.mod_pos_bound a NAK ltac:(lia)).
  destruct (float_div_between (a mod NAK) PADA 0 4) as (v & Hv & Hb); try lia.
  { nia. }
  exists v. split; [assumption|]. split; [lia|].
  unfold pada_single_mod. rewrite nak_span_float. run.
  rewrite py_mod_eq, float_rem_nonneg by lia. run.
  rewrite pada_span_float. run. rewrite py_truediv_eq, Hv. run.
  rewrite py_int_eq, float_int_nonneg by lia. run. reflexivity.
Qed.

Lemma below_360_quotient : BELOW_360 * U <= (27 * 2 ^ 48 - 1) * 2 ^ 1026 * NAK.
Proof. apply Z.leb_le. vm_compute. reflexivity. Qed.

Lemma U_eq : U = 2 ^ 1074.
Proof. reflexivity. Qed.

Lemma nak_quotient a :
  0 <= a <= BELOW_360 ->
  exists v, float_div (Fin a) (Fin NAK) = Ok (Fin v) /\ 0 <= v < 27 * U.
Proof.
  intros Ha. pose proof NAK_pos. pose proof U_pos. pose proof HUGE_eq.
  unfold float_div. rewrite is_zero_fin.
  destruct (Z.eqb_spec NAK 0); [lia|]. rewrite div_fin_pos by lia.
  pose proof below_360_quotient.
  assert (a * U <= BELOW_360 * U) by (apply Z.mul_le_mono_nonneg_r; lia).
  destruct (round_between (a * U) NAK 0 0 (27 * 2 ^ 48 - 1) 1026)
    as (v & -> & _ & Hv); try lia.
  { pose proof U_eq. lia. }
  exists v. split; [reflexivity|]. pose proof U_eq. lia.
Qed.

Lemma decode_fin a :
  0 <= a <= BELOW_360 ->
  exists zs ni nk v,
    deg_to_zodiac_full (Fin a)
      = Ok {| zodiac_index := a / (30 * U); zodiac := zs;
              nak_index := ni; nakshatra := nk;
              pada := v / U + 1; sign_degree := Fin (a mod (30 * U)) |}
    /\ 0 <= a / (30 * U) <= 11
    /\ getitem ZODIAC_SIGNS (a / (30 * U)) = Ok zs
    /\ 0 <= ni <= 26 /\ getitem NAKSHATRAS ni = Ok nk
    /\ pada_single_mod (Fin a) = Ok (v / U + 1) /\ 0 <= v <= 4 * U.
Proof.
  intros Ha. pose proof U_pos as HU.
  assert (Hlt : a < 360 * U) by (unfold BELOW_360 in Ha; lia).
  assert (Hk : 0 <= a / (30 * U) <= 11).
  { split; [apply Z.div_pos; lia|].
    assert (a / (30 * U) < 12); [|lia].
    apply Z.div_lt_upper_bound; lia. }
  destruct (getitem_in_range ZODIAC_SIGNS (a / (30 * U))) as (zs & Hzs & _).
  { change (Z.of_nat (List.length ZODIAC_SIGNS)) with 12. lia. }
  destruct (nak_quotient a Ha) as (q & Hq & Hqb).
  assert (Hni : 0 <= q / U <= 26).
  { split; [apply Z.div_pos; lia|].
    assert (q / U < 27); [|lia].
    apply Z.div_lt_upper_bound; lia. }
  destruct (getitem_in_range NAKSHATRAS (q / U)) as (nk & Hnk & _).
  { change (Z.of_nat (List.length NAKSHATRAS)) with 27. lia. }
  destruct (pada_single_mod_fin a ltac:(lia)) as (v & Hv & Hvb & Hp).
  exists zs, (q / U), nk, v.
  split; [|repeat split; try assumption; lia].
  unfold deg_to_zodiac_full.
  rewrite normalize_deg_nonneg, Z.mod_small by lia. run.
  rewrite py_floordiv_eq, !py_float_eq, !of_int_small by lia.
  rewrite float_floor_div_30 by lia. run.
  rewrite py_int_eq, (float_int_nonneg (a / (30 * U) * U)) by (apply Z.mul_nonneg_nonneg; lia).
  rewrite Z.div_mul by lia. run. rewrite Hzs. run.
  rewrite !py_mod_eq, !float_rem_nonneg by lia. run.
  rewrite nak_span_float. run.
  rewrite py_truediv_eq, (Z.mod_small a (360 * U)), Hq by lia. run.
  rewrite py_int_eq, (float_int_nonneg q) by lia. run. rewrite Hnk. run.
  rewrite pada_mod_collapses by (constructor; lia).
  rewrite Hp. run. reflexivity.
Qed.

Lemma deg_to_zodiac_fin a :
  0 <= a <= BELOW_360 ->
  exists zs nk v,
    deg_to_zodiac (Fin a) = Ok (zs, nk, v / U + 1, Fin (a mod (30 * U)))
    /\ getitem ZODIAC_SIGNS (a / (30 * U)) = Ok zs
    /\ 0 <= v <= 4 * U.
Proof.
  intros Ha.
  destruct (decode_fin a Ha) as (zs & ni & nk & v & Hd & _ & Hzs & _ & _ & _ & Hv).
  exists zs, nk, v. split; [|split; assumption].
  unfold deg_to_zodiac. rewrite Hd. run. reflexivity.
Qed.

(** The three printed integers of a degree within a sign: each is the
    floor of the float the source truncates. *)
Lemma dms_of_fin a :
  0 <= a < 30 * U ->
  exists f x g y,
    sub (Fin a) (of_int (a / U)) = Fin f /\ 0 <= f <= U
    /\ mul (Fin f) (of_int 60) = Fin x /\ 0 <= x <= 60 * U
    /\ sub (Fin x) (of_int (x / U)) = Fin g /\ 0 <= g <= U
    /\ mul (Fin g) (of_int 60) = Fin y /\ 0 <= y <= 60 * U
    /\ dms_of (Fin a) = Ok (a / U, x / U, y / U).
Proof.
  intros Ha. pose proof U_pos as HU.
  assert (Hd : 0 <= a / U < 30).
  { split; [apply Z.div_pos; lia|apply Z.div_lt_upper_bound; lia]. }
  pose proof (Z.div_mod a U ltac:(lia)) as Hdm.
  pose proof (Z.mod_pos_bound a U HU) as Hm.
  destruct (round_in (a - a / U * U) 1 0 1) as (f & Hf & Hfb); try lia.
  destruct (round_in (f * (60 * U)) U 0 60) as (x & Hx & Hxb); try lia; [nia|].
  assert (Hxd : 0 <= x / U <= 60).
  { split; [apply Z.div_pos; lia|].
    assert (x / U < 61); [apply Z.div_lt_upper_bound; lia|lia]. }
  pose proof (Z.div_mod x U ltac:(lia)) as Hxdm.
  pose proof (Z.mod_pos_bound x U HU) as Hxm.
  destruct (round_in (x - x / U * U) 1 0 1) as (g & Hg & Hgb); try lia.
  destruct (round_in (g * (60 * U)) U 0 60) as (y & Hy & Hyb); try lia; [nia|].
  exists f, x, g, y.
  rewrite (of_int_small (a / U)), (of_int_small 60), (of_int_small (x / U)) by lia.
  rewrite !sub_fin, !mul_fin, Hf, Hx, Hg, Hy.
  repeat (split; [reflexivity || lia|]).
  unfold dms_of.
  rewrite py_int_eq, (float_int_nonneg a) by lia. run.
  rewrite !py_sub_eq, !py_mul_eq, (py_float_eq (a / U)), (py_float_eq 60).
  rewrite (of_int_small (a / U)), (of_int_small 60) by lia.
  rewrite !sub_fin, Hf, !mul_fin, Hx.
  rewrite py_int_eq, (float_int_nonneg x) by lia. run.
  rewrite py_sub_eq, py_mul_eq, (py_float_eq (x / U)).
  rewrite (of_int_small (x / U)) by lia.
  rewrite sub_fin, Hg, mul_fin, Hy.
  rewrite py_int_eq, (float_int_nonneg y) by lia. run. reflexivity.
Qed.

Lemma format_result_fin a :
  0 <= a <= BELOW_360 ->
  exists dms zs nk v,
    format_result (Fin a) = Ok (dms_str dms, zs, nk, v / U + 1)
    /\ dms_of (Fin (a mod (30 * U))) = Ok dms
    /\ getitem ZODIAC_SIGNS (a / (30 * U)) = Ok zs
    /\ 0 <= v <= 4 * U.
Proof.
  intros Ha. pose proof U_pos as HU.
  assert (Hlt : a < 360 * U) by (unfold BELOW_360 in Ha; lia).
  destruct (deg_to_zodiac_fin a Ha) as (zs & nk & v & Hd & Hzs & Hv).
  pose proof (Z.mod_pos_bound a (30 * U) ltac:(lia)) as Hm.
  destruct (dms_of_fin (a mod (30 * U)) Hm)
    as (f & x & g & y & _ & _ & _ & _ & _ & _ & _ & _ & Hdms).
  eexists _, zs, nk, v. split; [|split; [exact Hdms|split; assumption]].
  unfold format_result.
  rewrite normalize_deg_nonneg, Z.mod_small by lia. run.
  rewrite Hd. run. rewrite Hdms. run. reflexivity.
Qed.

(** Subtracting a normalised degree from 360 and adding it back gives
    360 again: the rounding error of the difference is at most half the
    spacing of the floats around 360, and 360 has an even significand. *)
Lemma complement_sum m :
  0 <= m <= 360 * U ->
  exists a, sub (Fin (360 * U)) (Fin m) = Fin a /\ 0 <= a <= 360 * U
    /\ add (Fin a) (Fin m) = Fin (360 * U).
Proof.
  intros Hm. pose proof U_pos as HU. pose proof U_eq as HUe. pose proof HUGE_eq as HH.
  rewrite sub_fin.
  destruct (round_between (360 * U - m) 1 0 0 360 E)
    as (a & -> & Ha & Hab); try (unfold E; lia); try (fold U; lia).
  fold U in Hab. exists a. split; [reflexivity|]. split; [lia|].
  (* the error of the first rounding *)
  assert (Herr : 2 * Z.abs (a - (360 * U - m)) <= 2 ^ 1030).
  { subst a. unfold round_units.
    set (sh := shift_of (360 * U - m) 1).
    assert (Hsh : 0 <= sh <= 1030).
    { split; [apply shift_of_nonneg|].
      apply shift_of_small; [lia|lia|]. change (1030 + 53) with 1083. lia. }
    assert (0 < 2 ^ sh) by (apply Z.pow_pos_nonneg; lia).
    pose proof (rne_error (360 * U - m) (1 * 2 ^ sh) ltac:(lia)) as He.
    set (d := 1 * 2 ^ sh) in *. assert (d = 2 ^ sh) by (unfold d; lia).
    assert (2 ^ sh <= 2 ^ 1030) by (apply Z.pow_le_mono_r; lia).
    lia. }
  rewrite add_fin. unfold round, round_units.
  rewrite (shift_of_eq (a + m) 1 1030)
    by (try change (1030 + 52) with 1082; try change (1030 + 53) with 1083; lia).
  rewrite (rne_near (a + m) (1 * 2 ^ 1030) (360 * 2 ^ 44)) by (try reflexivity; lia).
  replace (360 * 2 ^ 44 * 2 ^ 1030) with (360 * U) by lia.
  destruct (Z.leb_spec HUGE (360 * U)); [lia|].
  destruct (Z.leb_spec (360 * U) (- HUGE)); [lia|]. reflexivity.
Qed.

Lemma round_exact_quot n d m k :
  0 < d -> 0 <= k -> Z.abs m < 2 ^ 53 -> Z.abs (m * 2 ^ k) < HUGE ->
  n = m * 2 ^ k * d -> round n d = Fin (m * 2 ^ k).
Proof.
  intros Hd Hk Hm Hh ->. unfold round.
  rewrite round_units_exact by assumption.
  destruct (Z.leb_spec HUGE (m * 2 ^ k)); [lia|].
  destruct (Z.leb_spec (m * 2 ^ k) (- HUGE)); [lia|]. reflexivity.
Qed.

Lemma FINE_U : U = 2 ^ 40 * FINE.
Proof. reflexivity. Qed.

Lemma FINE_pos : 0 < FINE.
Proof. reflexivity. Qed.

Lemma round_fine j :
  Z.abs j < 2 ^ 53 -> round (j * FINE) 1 = Fin (j * FINE).
Proof.
  intros Hj. pose proof HUGE_eq. pose proof FINE_U. pose proof FINE_pos.
  apply (round_exact_quot _ 1 j 1034); fold FINE; try lia.
  rewrite Z.abs_mul, (Z.abs_eq FINE) by lia. nia.
Qed.

(** The offset of portion [p]: [p * 90 / 4] degrees, computed exactly. *)
Lemma temporal_offset p s :
  0 <= p <= 8 ->
  temporal_point p s = normalize_deg (add s (Fin (45 * p * 2 ^ 39 * FINE))).
Proof.
  intros Hp. pose proof U_pos. pose proof HUGE_eq. pose proof FINE_U. pose proof FINE_pos.
  unfold temporal_point. rewrite day_portion_float. run.
  rewrite py_truediv_eq, py_mul_eq, (py_float_eq p), (py_float_eq 4).
  rewrite (of_int_small p), (of_int_small 4) by lia.
  rewrite mul_fin, (round_int (p * U * (90 * U)) U (90 * p)) by lia.
  unfold float_div. rewrite is_zero_fin.
  destruct (Z.eqb_spec (4 * U) 0); [lia|]. rewrite div_fin_pos by lia.
  rewrite (round_exact_quot (90 * p * U * U) (4 * U) (45 * p * 2 ^ 39) 1034)
    by (fold FINE;
        first [ lia | rewrite FINE_U; ring
              | rewrite Z.abs_mul, (Z.abs_eq FINE) by lia; nia ]).
  fold FINE. run. rewrite py_add_eq. reflexivity.
Qed.

Lemma normalize_fine j :
  0 <= j < 2 ^ 52 ->
  normalize_deg (Fin (j * FINE)) = Ok (Fin (j mod (360 * 2 ^ 40) * FINE)).
Proof.
  intros Hj. pose proof FINE_U. pose proof FINE_pos.
  rewrite normalize_deg_nonneg by lia.
  replace (360 * U) with (360 * 2 ^ 40 * FINE) by lia.
  now rewrite Z.mul_mod_distr_r by lia.
Qed.

Lemma gulika_ahead_fine (w j : Z) :
  0 <= w <= 6 -> 0 <= j < 360 * 2 ^ 40 ->
  exists g m,
    calc_gulika w (Fin (j * FINE)) = Ok g
    /\ calc_mandi w (Fin (j * FINE)) = Ok m
    /\ normalize_deg (add m (of_dec 225 10)) = Ok g.
Proof.
  intros Hw Hj. pose proof FINE_pos.
  destruct (calc_by_table _ _ w (Fin (j * FINE)) Hw) as [-> ->].
  assert (Hgp : gulika_portion_table w = mandi_portion_table w + 1
                /\ 0 <= mandi_portion_table w <= 6).
  { assert (Hc : w = 0 \/ w = 1 \/ w = 2 \/ w = 3 \/ w = 4 \/ w = 5 \/ w = 6) by lia.
    destruct Hc as [->|[->|[->|[->|[->|[->| ->]]]]]]; cbn; lia. }
  destruct Hgp as [-> Hp]. set (p := mandi_portion_table w) in *. clearbody p.
  rewrite !temporal_offset by lia.
  rewrite !add_fin.
  replace (j * FINE + 45 * (p + 1) * 2 ^ 39 * FINE)
    with ((j + 45 * (p + 1) * 2 ^ 39) * FINE) by lia.
  replace (j * FINE + 45 * p * 2 ^ 39 * FINE)
    with ((j + 45 * p * 2 ^ 39) * FINE) by lia.
  rewrite !round_fine by lia. rewrite !normalize_fine by lia.
  eexists _, _. split; [reflexivity|]. split; [reflexivity|].
  replace (of_dec 225 10) with (Fin (45 * 2 ^ 39 * FINE)) by (vm_compute; reflexivity).
  pose proof (Z.mod_pos_bound (j + 45 * p * 2 ^ 39) (360 * 2 ^ 40) ltac:(lia)).
  rewrite add_fin.
  replace ((j + 45 * p * 2 ^ 39) mod (360 * 2 ^ 40) * FINE + 45 * 2 ^ 39 * FINE)
    with (((j + 45 * p * 2 ^ 39) mod (360 * 2 ^ 40) + 45 * 2 ^ 39) * FINE) by lia.
  rewrite round_fine by lia. rewrite normalize_fine by lia.
  rewrite Zplus_mod_idemp_l.
  replace (j + 45 * p * 2 ^ 39 + 45 * 2 ^ 39) with (j + 45 * (p + 1) * 2 ^ 39) by lia.
  reflexivity.
Qed.


(** The remainder of two floats is a float: [fmod] is exact. *)
Lemma representable_mod a b :
  representable a -> representable b -> 0 <= a -> 0 < b ->
  representable (a mod b).
Proof.
  intros (ma & ka & -> & Hma & Hka & Ha) (mb & kb & -> & Hmb & Hkb & Hb) Ha0 Hb0.
  assert (Hpa : 0 < 2 ^ ka) by (apply Z.pow_pos_nonneg; lia).
  assert (Hpb : 0 < 2 ^ kb) by (apply Z.pow_pos_nonneg; lia).
  assert (Hma0 : 0 <= ma) by nia.
  assert (Hmb0 : 0 < mb) by nia.
  pose proof (Z.mod_pos_bound (ma * 2 ^ ka) (mb * 2 ^ kb) Hb0) as Hr.
  assert (Hrh : Z.abs ((ma * 2 ^ ka) mod (mb * 2 ^ kb)) < HUGE).
  { rewrite Z.abs_eq by lia. rewrite Z.abs_eq in Hb by lia. lia. }
  destruct (Z_le_gt_dec kb ka) as [Hk|Hk].
  - exists ((ma * 2 ^ (ka - kb)) mod mb), kb.
    assert (He : ma * 2 ^ ka = ma * 2 ^ (ka - kb) * 2 ^ kb).
    { rewrite <- Z.mul_assoc, <- Z.pow_add_r by lia. do 2 f_equal. lia. }
    pose proof (Z.mod_pos_bound (ma * 2 ^ (ka - kb)) mb Hmb0).
    split; [|split; [|split]]; try lia.
    rewrite He at 1. rewrite Z.mul_mod_distr_r by lia. reflexivity.
  - exists (ma mod (mb * 2 ^ (kb - ka))), ka.
    assert (He : mb * 2 ^ kb = mb * 2 ^ (kb - ka) * 2 ^ ka).
    { rewrite <- Z.mul_assoc, <- Z.pow_add_r by lia. do 2 f_equal. lia. }
    assert (0 < 2 ^ (kb - ka)) by (apply Z.pow_pos_nonneg; lia).
    assert (Hd : 0 < mb * 2 ^ (kb - ka)) by nia.
    pose proof (Z.mod_pos_bound ma (mb * 2 ^ (kb - ka)) Hd).
    pose proof (Z.mod_le ma (mb * 2 ^ (kb - ka)) Hma0 Hd).
    split; [|split; [|split]]; try lia.
    rewrite He at 1. rewrite Z.mul_mod_distr_r by lia. reflexivity.
Qed.

(** A float below a float with a full significand is at most its
    predecessor. *)
Lemma representable_below a m k :
  representable a -> 0 <= k -> 2 ^ 52 < m -> a < m * 2 ^ k ->
  a <= (m - 1) * 2 ^ k.
Proof.
  intros (ma & ka & -> & Hma & Hka & _) Hk Hm Ha.
  assert (Hpa : 0 < 2 ^ ka) by (apply Z.pow_pos_nonneg; lia).
  assert (Hpk : 0 < 2 ^ k) by (apply Z.pow_pos_nonneg; lia).
  destruct (Z_le_gt_dec k ka) as [Hle|Hgt].
  - replace (2 ^ ka) with (2 ^ (ka - k) * 2 ^ k) in *
      by (rewrite <- Z.pow_add_r by lia; f_equal; lia).
    assert (0 < 2 ^ (ka - k)) by (apply Z.pow_pos_nonneg; lia).
    assert (ma * 2 ^ (ka - k) < m) by nia. nia.
  - assert (Hd : 2 ^ k = 2 ^ (k - ka - 1) * 2 * 2 ^ ka).
    { rewrite <- Z.mul_assoc, <- (Z.pow_succ_r 2 ka), <- Z.pow_add_r by lia.
      f_equal. lia. }
    assert (0 < 2 ^ (k - ka - 1)) by (apply Z.pow_pos_nonneg; lia).
    rewrite Hd.
    assert (ma < 2 ^ 53) by lia. nia.
Qed.

Lemma representable_int z : Z.abs z < 2 ^ 53 -> representable (z * U).
Proof.
  intros Hz. exists z, E. pose proof HUGE_eq. pose proof U_pos.
  unfold U at 1. repeat split; try (unfold E; lia).
  rewrite Z.abs_mul, (Z.abs_eq U) by lia. nia.
Qed.

Lemma representable_NAK : representable NAK.
Proof.
  exists 7505999378950827, 1025. repeat split; lia.
Qed.

Lemma below_nak_quotient :
  (NAK - 2 ^ 1025) * U <= (2 ^ 53 - 1) * 2 ^ 1023 * PADA.
Proof. apply Z.leb_le. vm_compute. reflexivity. Qed.

(** The pada of a non-negative float is one of 1, 2, 3, 4. *)
Lemma pada_single_mod_float a :
  representable a -> 0 <= a ->
  exists p, pada_single_mod (Fin a) = Ok p /\ 1 <= p <= 4.
Proof.
  intros Hr Ha. pose proof NAK_pos. pose proof PADA_pos. pose proof U_pos.
  pose proof U_eq. pose proof HUGE_eq.
  pose proof (Z.mod_pos_bound a NAK ltac:(lia)) as Hm.
  assert (Hb : a mod NAK <= NAK - 2 ^ 1025).
  { pose proof (representable_below (a mod NAK) 7505999378950827 1025
                  (representable_mod a NAK Hr representable_NAK Ha ltac:(lia))
                  ltac:(lia) ltac:(lia)) as Hp.
    unfold NAK in *. lia. }
  pose proof below_nak_quotient.
  assert ((a mod NAK) * U <= (NAK - 2 ^ 1025) * U)
    by (apply Z.mul_le_mono_nonneg_r; lia).
  destruct (round_between ((a mod NAK) * U) PADA 0 0 (2 ^ 53 - 1) 1023)
    as (v & Hv & _ & Hvb); try lia.
  exists (v / U + 1).
  assert (0 <= v / U < 4).
  { split; [apply Z.div_pos; lia|apply Z.div_lt_upper_bound; lia]. }
  split; [|lia].
  unfold pada_single_mod. rewrite nak_span_float. run.
  rewrite py_mod_eq, float_rem_nonneg by lia. run.
  rewrite pada_span_float. run. rewrite py_truediv_eq.
  unfold float_div. rewrite is_zero_fin.
  destruct (Z.eqb_spec PADA 0); [lia|]. rewrite div_fin_pos, Hv by lia. run.
  rewrite py_int_eq, (float_int_nonneg v) by lia. run. reflexivity.
Qed.

(** On every non-negative float the decoder returns, with a sign index
    from 0 to 11, a nakshatra index from 0 to 26 and a pada from 1 to 4. *)
Lemma deg_to_zodiac_in_bounds a :
  representable a -> 0 <= a ->
  exists r, deg_to_zodiac_full (Fin a) = Ok r
    /\ 0 <= zodiac_index r <= 11 /\ 0 <= nak_index r <= 26 /\ 1 <= pada r <= 4.
Proof.
  intros Hr Ha. pose proof U_pos as HU. pose proof U_eq.
  set (b := a mod (360 * U)).
  pose proof (Z.mod_pos_bound a (360 * U) ltac:(lia)) as Hb. fold b in Hb.
  assert (Hrb : representable b).
  { apply representable_mod; try assumption; try lia.
    apply (representable_int 360). lia. }
  assert (Hbb : 0 <= b <= BELOW_360).
  { split; [lia|]. unfold BELOW_360.
    pose proof (representable_below b (360 * 2 ^ 44) 1030 Hrb) as Hp. lia. }
  destruct (decode_fin b Hbb)
    as (zs & ni & nk & v & Hd & Hzi & _ & Hni & _ & Hps & _).
  destruct (pada_single_mod_float b Hrb ltac:(lia)) as (p & Hp & Hpb).
  (* the decoder normalises once more, to the same degree *)
  assert (Hfull : deg_to_zodiac_full (Fin a) = deg_to_zodiac_full (Fin b)).
  { unfold deg_to_zodiac_full.
    rewrite (normalize_deg_nonneg a), (normalize_deg_nonneg b) by lia.
    fold b. rewrite (Z.mod_small b) by lia. reflexivity. }
  rewrite Hfull, Hd. eexists. split; [reflexivity|].
  cbn [zodiac_index nak_index pada].
  split; [assumption|]. split; [assumption|].
  rewrite Hp in Hps. injection Hps as <-. assumption.
Qed.

(** ** Rounding returns floats *)

Lemma shift_of_upper n d : 0 < d -> Z.abs n < 2 ^ (shift_of n d + 53) * d.
Proof.
  intros Hd. rewrite shift_of_spec by assumption.
  set (q := Z.abs n / d).
  assert (Hq0 : 0 <= q) by (apply Z.div_pos; [apply Z.abs_nonneg|lia]).
  pose proof (Z.mul_succ_div_gt (Z.abs n) d Hd) as Hhi. fold q in Hhi.
  pose proof (Z.log2_nonneg q) as HL.
  assert (Hq : q < 2 ^ (Z.log2 q + 1)).
  { destruct (Z.eq_dec q 0) as [->|]; [reflexivity|].
    pose proof (Z.log2_spec q ltac:(lia)) as [_ H]. exact H. }
  assert (Hm : 2 ^ (Z.log2 q + 1) <= 2 ^ (Z.max 0 (Z.log2 q - 52) + 53))
    by (apply Z.pow_le_mono_r; lia).
  nia.
Qed.

(** What rounding returns has at most 53 significant bits. *)
Lemma round_units_representable n d :
  0 < d -> Z.abs (round_units n d) < HUGE -> representable (round_units n d).
Proof.
  intros Hd Hh. pose proof (shift_of_upper n d Hd) as Hup.
  pose proof (shift_of_nonneg n d) as Hsh. unfold round_units in *.
  set (sh := shift_of n d) in *.
  assert (Hp : 0 < 2 ^ sh) by (apply Z.pow_pos_nonneg; lia).
  rewrite Z.pow_add_r in Hup by lia.
  assert (Hr1 : rne n (d * 2 ^ sh) <= 2 ^ 53) by (apply rne_le; [nia|lia]).
  assert (Hr2 : - 2 ^ 53 <= rne n (d * 2 ^ sh)) by (apply rne_ge; [nia|lia]).
  set (r := rne n (d * 2 ^ sh)) in *.
  destruct (Z.eq_dec r (2 ^ 53)) as [He|Hne1].
  { exists 1, (sh + 53). rewrite He in *. rewrite Z.pow_add_r by lia.
    repeat split; lia. }
  destruct (Z.eq_dec r (- 2 ^ 53)) as [He|Hne2].
  { exists (-1), (sh + 53). rewrite He in *. rewrite Z.pow_add_r by lia.
    repeat split; lia. }
  exists r, sh. repeat split; lia.
Qed.

Lemma round_float n d : 0 < d -> float (round n d).
Proof.
  intros Hd. unfold round.
  destruct (Z.leb_spec HUGE (round_units n d)); [exact I|].
  destruct (Z.leb_spec (round_units n d) (- HUGE)); [exact I|].
  apply round_units_representable; [assumption|lia].
Qed.

Lemma representable_0 : representable 0.
Proof. exists 0, 0. repeat split; lia. Qed.

Lemma representable_opp a : representable a -> representable (- a).
Proof.
  intros (m & k & -> & Hm & Hk & Hh). exists (- m), k.
  rewrite Z.abs_opp in *. repeat split; try lia.
Qed.

Lemma add_float x y : float x -> float y -> float (add x y).
Proof.
  destruct x, y; cbn [float]; intros; try exact I.
  - rewrite add_fin. apply round_float. lia.
  - unfold add. destruct (Bool.eqb neg neg0); exact I.
Qed.

Lemma opp_float x : float x -> float (opp x).
Proof. destruct x; cbn [float opp]; auto using representable_opp. Qed.

Lemma sub_float x y : float x -> float y -> float (sub x y).
Proof. intros. unfold sub. auto using add_float, opp_float. Qed.

Lemma mul_float x y : float x -> float y -> float (mul x y).
Proof.
  destruct x, y; cbn [float]; intros; try exact I.
  - rewrite mul_fin. apply round_float. apply U_pos.
  - unfold mul. destruct (n =? 0); exact I.
  - unfold mul. destruct (n =? 0); exact I.
Qed.

Lemma div_float x y : float x -> float y -> float (div x y).
Proof.
  destruct x, y; cbn [float]; intros; try exact I.
  - unfold div. destruct (Z.eqb_spec n0 0); [exact I|].
    apply round_float. lia.
  - cbn [div float]. apply representable_0.
Qed.

Lemma add_comm x y : add x y = add y x.
Proof.
  destruct x as [a|s|], y as [b|s'|]; try reflexivity.
  - rewrite !add_fin, Z.add_comm. reflexivity.
  - destruct s, s'; reflexivity.
Qed.

(** ** Rounding below a midpoint *)

Lemma rne_le_half n d z : 0 < d -> 2 * n < (2 * z + 1) * d -> rne n d <= z.
Proof.
  intros Hd Hn. rewrite rne_eq.
  pose proof (Z.div_mod n d ltac:(lia)) as Hdm.
  pose proof (Z.mod_pos_bound n d Hd) as Hr.
  assert (n / d <= z) by nia.
  destruct (Z.compare_spec (2 * (n mod d)) d); try destruct (Z.even (n / d)); nia.
Qed.

(** Below the midpoint between a float and its successor, rounding does
    not reach the successor. *)
Lemma round_units_le_half n d m k :
  0 < d -> 0 <= k -> 2 ^ 52 <= m < 2 ^ 53 ->
  2 * n < (2 * m + 1) * 2 ^ k * d ->
  round_units n d <= m * 2 ^ k.
Proof.
  intros Hd Hk Hm Hn.
  assert (Hp : 0 < 2 ^ k) by (apply Z.pow_pos_nonneg; lia).
  destruct (Z_le_gt_dec n (m * 2 ^ k * d)) as [Hle|Hgt].
  - apply round_units_le; lia.
  - assert (Hsh : shift_of n d = k).
    { apply shift_of_eq; try assumption.
      rewrite !Z.pow_add_r by lia. rewrite Z.abs_eq by nia. nia. }
    unfold round_units. rewrite Hsh.
    assert (rne n (d * 2 ^ k) <= m) by (apply rne_le_half; nia). nia.
Qed.

Lemma U_EPS : U = 2 ^ 53 * EPS.
Proof. reflexivity. Qed.

Lemma EPS_pos : 0 < EPS.
Proof. reflexivity. Qed.

Lemma U_TINY : U = 2 ^ 45 * TINY.
Proof. reflexivity. Qed.

Lemma TINY_pos : 0 < TINY.
Proof. reflexivity. Qed.

Lemma HUGE_big : 2 ^ 60 * U <= HUGE.
Proof. apply Z.leb_le. vm_compute. reflexivity. Qed.

Lemma HUGE_TOP : HUGE = 2 ^ 53 * 2 ^ 2045.
Proof. reflexivity. Qed.

Lemma U_TOP : 2 ^ 12 * U <= 2 ^ 2045.
Proof. apply Z.leb_le. vm_compute. reflexivity. Qed.

Lemma representable_U : representable U.
Proof.
  exists 1, E. pose proof HUGE_big. pose proof U_pos.
  unfold U at 1. repeat split; try (unfold E; lia).
Qed.

Lemma representable_fine j : Z.abs j < 2 ^ 53 -> representable (j * FINE).
Proof.
  intros Hj. pose proof HUGE_eq. pose proof FINE_U. pose proof FINE_pos.
  exists j, 1034. fold FINE. repeat split; try lia.
  rewrite Z.abs_mul, (Z.abs_eq FINE) by lia. nia.
Qed.

(** ** Sums that stay finite *)

(** A sum between two small integers is finite. *)
Lemma add_in a b lo hi :
  Z.abs lo < 2 ^ 53 -> Z.abs hi < 2 ^ 53 -> lo * U <= a + b <= hi * U ->
  exists c, add (Fin a) (Fin b) = Fin c /\ lo * U <= c <= hi * U
            /\ representable c.
Proof.
  intros Hlo Hhi Hb. rewrite add_fin.
  pose proof (round_float (a + b) 1 ltac:(lia)) as Hf.
  destruct (round_in (a + b) 1 lo hi) as (c & Hc & Hcb); try lia.
  rewrite Hc in *. exists c. auto.
Qed.

Lemma sub_in a b lo hi :
  Z.abs lo < 2 ^ 53 -> Z.abs hi < 2 ^ 53 -> lo * U <= a - b <= hi * U ->
  exists c, sub (Fin a) (Fin b) = Fin c /\ lo * U <= c <= hi * U
            /\ representable c.
Proof.
  intros Hlo Hhi Hb. rewrite sub_fin.
  pose proof (round_float (a - b) 1 ltac:(lia)) as Hf.
  destruct (round_in (a - b) 1 lo hi) as (c & Hc & Hcb); try lia.
  rewrite Hc in *. exists c. auto.
Qed.

Lemma half_in c :
  0 <= c <= 720 * U ->
  exists v, float_div (Fin c) (of_int 2) = Ok (Fin v) /\ representable v.
Proof.
  intros Hc. pose proof U_pos as HU.
  rewrite (of_int_small 2) by lia.
  destruct (float_div_between c (2 * U) 0 360) as (v & Hv & _); try lia.
  { split; [apply Z.mul_nonneg_nonneg; lia|].
    replace (360 * U * (2 * U)) with (720 * U * U) by lia.
    apply Z.mul_le_mono_nonneg_r; lia. }
  exists v. split; [assumption|].
  unfold float_div in Hv. rewrite is_zero_fin in Hv.
  assert (Hz : (2 * U =? 0) = false) by (apply Z.eqb_neq; lia).
  rewrite Hz, div_fin_pos in Hv by lia.
  pose proof (round_float (c * U) (2 * U) ltac:(lia)) as Hf.
  assert (Hd : round (c * U) (2 * U) = Fin v) by congruence.
  rewrite Hd in Hf. exact Hf.
Qed.

Lemma add_small_at k s o :
  0 <= k -> HUGE = 2 ^ 53 * 2 ^ k -> 2 ^ 12 * U <= 2 ^ k ->
  representable s -> 0 <= o <= 2 ^ 10 * U ->
  exists v, add (Fin s) (Fin o) = Fin v /\ representable v /\ (0 <= s -> 0 <= v).
Proof.
  intros Hk HH HT Hr Ho. pose proof U_pos as HU.
  assert (Hs : Z.abs s < HUGE) by (destruct Hr as (? & ? & ? & ? & ? & ?); assumption).
  pose proof (representable_below s (2 ^ 53) k Hr ltac:(lia) ltac:(lia)) as Hup.
  pose proof (representable_below (- s) (2 ^ 53) k (representable_opp s Hr)
                ltac:(lia) ltac:(lia)) as Hdn.
  assert (Hle : round_units (s + o) 1 <= (2 ^ 53 - 1) * 2 ^ k).
  { apply round_units_le_half; lia. }
  assert (Hge : (- (2 ^ 53 - 1)) * 2 ^ k <= round_units (s + o) 1).
  { apply round_units_ge; lia. }
  rewrite add_fin. unfold round.
  destruct (Z.leb_spec HUGE (round_units (s + o) 1)); [lia|].
  destruct (Z.leb_spec (round_units (s + o) 1) (- HUGE)); [lia|].
  eexists. split; [reflexivity|].
  split; [apply round_units_representable; lia|].
  intros. apply round_units_nonneg; lia.
Qed.

(** Adding a small offset to a finite float gives a finite float: next
    to the largest float the offset is rounded away. *)
Lemma add_small s o :
  representable s -> 0 <= o <= 2 ^ 10 * U ->
  exists v, add (Fin s) (Fin o) = Fin v /\ representable v /\ (0 <= s -> 0 <= v).
Proof. apply (add_small_at 2045); [lia|exact HUGE_TOP|exact U_TOP]. Qed.

(** ** Degrees, minutes and seconds of a float *)

(** A fraction of a degree times 60 stays below 60: the largest float
    below 1.0 is [1 - 2^-53], and [60 - 60 * 2^-53] rounds down. *)
Lemma sixty_times f :
  representable f -> 0 <= f < U ->
  exists x, mul (Fin f) (Fin (60 * U)) = Fin x /\ 0 <= x < 60 * U
            /\ representable x.
Proof.
  intros Hf Hfb. pose proof U_pos as HU. pose proof EPS_pos as HE.
  pose proof U_EPS as HUE. pose proof HUGE_big as HH.
  assert (Hfe : f <= (2 ^ 53 - 1) * EPS).
  { apply (representable_below f (2 ^ 53) 1021 Hf); try lia.
    fold EPS. lia. }
  assert (Hle : round_units (f * (60 * U)) U <= (60 * 2 ^ 47 - 1) * 2 ^ 1027).
  { apply round_units_le_half; try lia.
    replace (2 ^ 1027) with (64 * EPS) by reflexivity. nia. }
  replace (2 ^ 1027) with (64 * EPS) in Hle by reflexivity.
  assert (Hge : 0 <= round_units (f * (60 * U)) U)
    by (apply round_units_nonneg; nia).
  rewrite mul_fin. unfold round.
  destruct (Z.leb_spec HUGE (round_units (f * (60 * U)) U)); [lia|].
  destruct (Z.leb_spec (round_units (f * (60 * U)) U) (- HUGE)); [lia|].
  eexists. split; [reflexivity|]. split; [lia|].
  apply round_units_representable; lia.
Qed.

(** Taking the whole degrees (or minutes) off a float is exact. *)
Lemma sub_floor a :
  representable a -> 0 <= a -> a / U < 2 ^ 53 ->
  sub (Fin a) (of_int (a / U)) = Fin (a mod U)
  /\ 0 <= a mod U < U /\ representable (a mod U).
Proof.
  intros Ha Ha0 Hq. pose proof U_pos as HU.
  assert (0 <= a / U) by (apply Z.div_pos; lia).
  pose proof (Z.mod_pos_bound a U HU) as Hm.
  assert (Hr : representable (a mod U))
    by (apply representable_mod; auto using representable_U).
  rewrite of_int_small, sub_fin by lia.
  replace (a - a / U * U) with (a mod U)
    by (pose proof (Z.div_mod a U ltac:(lia)); lia).
  rewrite round_exact by assumption. auto.
Qed.

(** Degrees, minutes and seconds of a float within a sign: never 30
    degrees, never 60 minutes or seconds. *)
Lemma dms_of_float a :
  representable a -> 0 <= a < 30 * U ->
  exists d m s, dms_of (Fin a) = Ok (d, m, s)
    /\ d = a / U /\ 0 <= d <= 29 /\ 0 <= m <= 59 /\ 0 <= s <= 59.
Proof.
  intros Ha Hab. pose proof U_pos as HU.
  assert (Hd : 0 <= a / U < 30).
  { split; [apply Z.div_pos; lia|apply Z.div_lt_upper_bound; lia]. }
  destruct (sub_floor a Ha ltac:(lia) ltac:(lia)) as (Hf & Hfb & Hfr).
  destruct (sixty_times (a mod U) Hfr Hfb) as (x & Hx & Hxb & Hxr).
  assert (Hm : 0 <= x / U < 60).
  { split; [apply Z.div_pos; lia|apply Z.div_lt_upper_bound; lia]. }
  destruct (sub_floor x Hxr ltac:(lia) ltac:(lia)) as (Hg & Hgb & Hgr).
  destruct (sixty_times (x mod U) Hgr Hgb) as (y & Hy & Hyb & Hyr).
  assert (Hs : 0 <= y / U < 60).
  { split; [apply Z.div_pos; lia|apply Z.div_lt_upper_bound; lia]. }
  exists (a / U), (x / U), (y / U).
  split; [|repeat split; lia].
  unfold dms_of.
  rewrite py_int_eq, (float_int_nonneg a) by lia. run.
  rewrite !py_sub_eq, !py_mul_eq, (py_float_eq (a / U)), (py_float_eq 60).
  rewrite (of_int_small 60) by lia. rewrite Hf, Hx.
  rewrite py_int_eq, (float_int_nonneg x) by lia. run.
  rewrite py_sub_eq, py_mul_eq, (py_float_eq (x / U)). rewrite Hg, Hy.
  rewrite py_int_eq, (float_int_nonneg y) by lia. run. reflexivity.
Qed.

(** ** [normalize_deg] on every finite float *)

Lemma rem_neg a b : a < 0 -> 0 < b -> Z.rem a b = - ((- a) mod b).
Proof.
  intros Ha Hb. replace a with (- - a) at 1 by lia.
  rewrite Z.rem_opp_l' , Z.rem_mod_nonneg by lia. reflexivity.
Qed.

(** [%] on a negative dividend: the remainder of [fmod] is negative or
    zero, and a negative one is moved up by a rounded addition. *)
Lemma float_rem_neg a b :
  a < 0 -> 0 < b ->
  float_rem (Fin a) (Fin b)
  = Ok (if (- a) mod b =? 0 then Fin 0 else round (b - (- a) mod b) 1).
Proof.
  intros Ha Hb. unfold float_rem, fmod. rewrite is_zero_fin.
  destruct (Z.eqb_spec b 0); [lia|].
  rewrite is_zero_fin, rem_neg by lia.
  pose proof (Z.mod_pos_bound (- a) b Hb) as Hr.
  destruct (Z.eqb_spec ((- a) mod b) 0) as [->|Hnz]; [reflexivity|].
  destruct (Z.eqb_spec (- ((- a) mod b)) 0); [lia|].
  unfold ltz.
  destruct (Z.ltb_spec b 0), (Z.ltb_spec (- ((- a) mod b)) 0); try lia.
  cbn [negb Bool.eqb]. rewrite add_fin. do 2 f_equal. lia.
Qed.

(** Within [2^-45] below 360 a sum rounds to 360.0. *)
Lemma round_to_360 c : 0 < c <= TINY -> round (360 * U - c) 1 = Fin (360 * U).
Proof.
  intros Hc. pose proof U_TINY as HU. pose proof TINY_pos as HT.
  pose proof HUGE_big as HH. pose proof U_pos as HUp.
  unfold round, round_units.
  rewrite (shift_of_eq (360 * U - c) 1 1030).
  2: lia. 2: lia.
  2: { replace (2 ^ (1030 + 52)) with (2 ^ 53 * TINY) by reflexivity.
       replace (2 ^ (1030 + 53)) with (2 ^ 54 * TINY) by reflexivity.
       rewrite Z.abs_eq by lia. lia. }
  replace (2 ^ 1030) with (2 * TINY) by reflexivity.
  rewrite (rne_near (360 * U - c) (1 * (2 * TINY)) (360 * 2 ^ 44));
    [|lia|rewrite Z.abs_neq by lia; lia|reflexivity].
  replace (360 * 2 ^ 44 * (2 * TINY)) with (360 * U) by lia.
  destruct (Z.leb_spec HUGE (360 * U)); [lia|].
  destruct (Z.leb_spec (360 * U) (- HUGE)); [lia|]. reflexivity.
Qed.

(** Farther than [2^-45] below 360 a sum stays below 360.0. *)
Lemma round_below_360 c :
  TINY < c <= 360 * U ->
  exists v, round (360 * U - c) 1 = Fin v /\ 0 <= v < 360 * U /\ representable v.
Proof.
  intros Hc. pose proof U_TINY as HU. pose proof TINY_pos as HT.
  pose proof HUGE_big as HH. pose proof U_pos as HUp.
  assert (Hle : round_units (360 * U - c) 1 <= (360 * 2 ^ 44 - 1) * 2 ^ 1030).
  { apply round_units_le_half; try lia.
    replace (2 ^ 1030) with (2 * TINY) by reflexivity. lia. }
  replace (2 ^ 1030) with (2 * TINY) in Hle by reflexivity.
  assert (Hge : 0 <= round_units (360 * U - c) 1)
    by (apply round_units_nonneg; lia).
  unfold round.
  destruct (Z.leb_spec HUGE (round_units (360 * U - c) 1)); [lia|].
  destruct (Z.leb_spec (round_units (360 * U - c) 1) (- HUGE)); [lia|].
  eexists. split; [reflexivity|]. split; [lia|].
  apply round_units_representable; lia.
Qed.

(** A float beyond [2^-45] that is not a multiple of 360 is farther
    than [2^-45] from the multiple of 360 below it. *)
Lemma far_from_turns a :
  representable a -> TINY < a -> a mod (360 * U) <> 0 ->
  TINY < a mod (360 * U).
Proof.
  intros (m & k & -> & Hm & Hk & _) Ha Hnz.
  pose proof U_TINY as HU. pose proof TINY_pos as HT.
  assert (Hp : 0 < 2 ^ k) by (apply Z.pow_pos_nonneg; lia).
  destruct (Z_lt_le_dec (m * 2 ^ k) (360 * U)) as [Hlt|Hge].
  { rewrite Z.mod_small by lia. lia. }
  assert (Hk30 : 1030 <= k).
  { destruct (Z_le_gt_dec 1030 k); [assumption|exfalso].
    assert (2 ^ k <= 2 ^ 1029) by (apply Z.pow_le_mono_r; lia).
    replace (2 ^ 1029) with TINY in * by reflexivity. nia. }
  assert (He : m * 2 ^ k = m * 2 ^ (k - 1030) * (2 * TINY)).
  { replace (2 * TINY) with (2 ^ 1030) by reflexivity.
    rewrite <- Z.mul_assoc, <- Z.pow_add_r by lia. do 2 f_equal. lia. }
  replace (360 * U) with (360 * 2 ^ 44 * (2 * TINY)) in * by lia.
  rewrite He in *. rewrite Z.mul_mod_distr_r in * by lia.
  pose proof (Z.mod_pos_bound (m * 2 ^ (k - 1030)) (360 * 2 ^ 44) ltac:(lia)).
  set (r := (m * 2 ^ (k - 1030)) mod (360 * 2 ^ 44)) in *.
  assert (1 <= r) by (destruct (Z.eq_dec r 0) as [Hz|]; [rewrite Hz in Hnz|]; lia).
  nia.
Qed.

Lemma normalize_deg_tiny a :
  - TINY <= a < 0 -> normalize_deg (Fin a) = Ok (Fin (360 * U)).
Proof.
  intros Ha. pose proof U_TINY as HU. pose proof TINY_pos as HT.
  rewrite normalize_deg_eq, float_rem_neg by lia.
  rewrite Z.mod_small by lia.
  destruct (Z.eqb_spec (- a) 0); [lia|].
  rewrite round_to_360 by lia. reflexivity.
Qed.

Lemma normalize_deg_beyond a :
  representable a -> a < - TINY ->
  exists b, normalize_deg (Fin a) = Ok (Fin b) /\ 0 <= b < 360 * U
            /\ representable b.
Proof.
  intros Hr Ha. pose proof U_TINY as HU. pose proof TINY_pos as HT.
  rewrite normalize_deg_eq, float_rem_neg by lia.
  pose proof (Z.mod_pos_bound (- a) (360 * U) ltac:(lia)) as Hm.
  destruct (Z.eqb_spec ((- a) mod (360 * U)) 0) as [He|Hne].
  { exists 0. split; [reflexivity|]. split; [lia|apply representable_0]. }
  pose proof (far_from_turns (- a) (representable_opp a Hr) ltac:(lia) Hne).
  destruct (round_below_360 ((- a) mod (360 * U))) as (v & Hv & Hvb & Hvr); [lia|].
  exists v. rewrite Hv. auto.
Qed.

Lemma normalize_deg_pos a :
  representable a -> 0 <= a ->
  normalize_deg (Fin a) = Ok (Fin (a mod (360 * U)))
  /\ 0 <= a mod (360 * U) < 360 * U /\ representable (a mod (360 * U)).
Proof.
  intros Hr Ha. pose proof U_pos.
  split; [apply normalize_deg_nonneg; assumption|].
  split; [apply Z.mod_pos_bound; lia|].
  apply representable_mod; try assumption; try lia.
  apply (representable_int 360). lia.
Qed.

(** [normalize_deg] on a finite float, case by case. *)
Lemma normalize_deg_cases a :
  representable a ->
  exists b, normalize_deg (Fin a) = Ok (Fin b) /\ representable b
    /\ 0 <= b <= 360 * U /\ (b = 360 * U <-> - TINY <= a < 0).
Proof.
  intros Hr. pose proof U_pos. pose proof TINY_pos.
  destruct (Z_le_gt_dec 0 a) as [Hpos|Hneg].
  - destruct (normalize_deg_pos a Hr Hpos) as (Hn & Hb & Hrb).
    exists (a mod (360 * U)). repeat split; try assumption; lia.
  - destruct (Z_le_gt_dec (- TINY) a) as [Ht|Hb].
    + exists (360 * U). rewrite normalize_deg_tiny by lia.
      repeat split; try lia. apply (representable_int 360). lia.
    + destruct (normalize_deg_beyond a Hr ltac:(lia)) as (b & Hn & Hbb & Hrb).
      exists b. repeat split; try assumption; lia.
Qed.

(** ** The decoder on every float *)

Lemma getitem_In {A} (l : list A) i x : getitem l i = Ok x -> List.In x l.
Proof.
  unfold getitem. destruct (_ && _); [|discriminate].
  destruct (List.nth_error l _) eqn:Hn; [|discriminate].
  intros [= <-]. eapply List.nth_error_In. eassumption.
Qed.

(** The decoder normalises a second time; below 360 that changes
    nothing. *)
Lemma deg_to_zodiac_full_norm a b :
  normalize_deg (Fin a) = Ok (Fin b) -> 0 <= b < 360 * U ->
  deg_to_zodiac_full (Fin a) = deg_to_zodiac_full (Fin b).
Proof.
  intros Hn Hb. unfold deg_to_zodiac_full.
  rewrite Hn, (normalize_deg_nonneg b), (Z.mod_small b) by lia. reflexivity.
Qed.

(** When the degree normalises to 360.0 the sign index is 12. *)
Lemma deg_to_zodiac_full_360 a :
  normalize_deg (Fin a) = Ok (Fin (360 * U)) ->
  deg_to_zodiac_full (Fin a) = Raise IndexError.
Proof.
  intros Hn. pose proof U_pos as HU. unfold deg_to_zodiac_full.
  assert (Hq : 360 * U / (30 * U) = 12).
  { replace (360 * U) with (12 * (30 * U)) by lia. apply Z.div_mul. lia. }
  rewrite Hn. run.
  rewrite py_floordiv_eq, (py_float_eq 30), (of_int_small 30) by lia.
  rewrite (float_floor_div_30 (360 * U)) by (rewrite ?Hq; lia).
  rewrite Hq. run.
  rewrite py_int_eq, (float_int_nonneg (12 * U)) by lia.
  rewrite Z.div_mul by lia. run.
  rewrite (getitem_past_end ZODIAC_SIGNS 12) by (cbn; lia). run. reflexivity.
Qed.

(** What the decoder returns on a float of [0, 360). *)
Lemma decode_float b :
  representable b -> 0 <= b < 360 * U ->
  exists r, deg_to_zodiac_full (Fin b) = Ok r
    /\ zodiac_index r = b / (30 * U) /\ 0 <= zodiac_index r <= 11
    /\ getitem ZODIAC_SIGNS (zodiac_index r) = Ok (zodiac r)
    /\ 0 <= nak_index r <= 26
    /\ getitem NAKSHATRAS (nak_index r) = Ok (nakshatra r)
    /\ 1 <= pada r <= 4
    /\ sign_degree r = Fin (b mod (30 * U)).
Proof.
  intros Hr Hb. pose proof U_TINY as HU. pose proof TINY_pos as HT.
  assert (Hbb : 0 <= b <= BELOW_360).
  { split; [lia|]. unfold BELOW_360.
    pose proof (representable_below b (360 * 2 ^ 44) 1030 Hr) as Hp.
    replace (2 ^ 1030) with (2 * TINY) in * by reflexivity. lia. }
  destruct (decode_fin b Hbb)
    as (zs & ni & nk & v & Hd & Hzi & Hzs & Hni & Hnk & Hps & _).
  destruct (pada_single_mod_float b Hr ltac:(lia)) as (p & Hp & Hpb).
  rewrite Hp in Hps. injection Hps as Hps. rewrite <- Hps in Hd.
  eexists. split; [exact Hd|]. cbn [zodiac_index zodiac nak_index nakshatra
                                    pada sign_degree].
  repeat (split; [assumption || reflexivity || lia|]). reflexivity.
Qed.

(** The tuple of a degree that normalises below 360. *)
Lemma deg_to_zodiac_on a b :
  normalize_deg (Fin a) = Ok (Fin b) -> representable b -> 0 <= b < 360 * U ->
  exists zs nk p,
    deg_to_zodiac (Fin a) = Ok (zs, nk, p, Fin (b mod (30 * U)))
    /\ List.In zs ZODIAC_SIGNS /\ List.In nk NAKSHATRAS /\ 1 <= p <= 4.
Proof.
  intros Hn Hrb Hlt.
  destruct (decode_float b Hrb Hlt)
    as (r & Hd & _ & _ & Hzs & _ & Hnk & Hp & Hsd).
  exists (zodiac r), (nakshatra r), (pada r).
  split.
  { unfold deg_to_zodiac.
    rewrite (deg_to_zodiac_full_norm a b Hn Hlt), Hd. run.
    rewrite Hsd. reflexivity. }
  split; [eapply getitem_In; eassumption|].
  split; [eapply getitem_In; eassumption|assumption].
Qed.

(** [format_result] returns a well-formed tuple on every finite float:
    its own normalisation hands the decoder a float from 0 to 360, and
    the decoder's brings 360.0 back to 0.0. *)
Lemma format_result_formatted a :
  representable a -> exists r, format_result (Fin a) = Ok r /\ formatted r.
Proof.
  intros Hr. pose proof U_pos as HU.
  destruct (normalize_deg_cases a Hr) as (b & Hn & Hrb & Hb & _).
  destruct (normalize_deg_pos b Hrb ltac:(lia)) as (Hn2 & Hc & Hrc).
  destruct (deg_to_zodiac_on b _ Hn2 Hrc Hc) as (zs & nk & p & Hd & Hzs & Hnk & Hp).
  set (c := b mod (360 * U)) in *.
  pose proof (Z.mod_pos_bound c (30 * U) ltac:(lia)) as Hsd.
  assert (Hrs : representable (c mod (30 * U))).
  { apply representable_mod; try assumption; try lia.
    apply (representable_int 30). lia. }
  destruct (dms_of_float _ Hrs Hsd) as (d & m & s & Hdms & _ & Hdb & Hmb & Hsb).
  exists (dms_str (d, m, s), zs, nk, p). split.
  - unfold format_result. rewrite Hn. run. rewrite Hd. run. rewrite Hdms. run.
    reflexivity.
  - unfold formatted. split; [exists d, m, s; auto|auto].
Qed.

Lemma float_floor_div_nan b : 0 < b -> float_floor_div NaN (Fin b) = Ok NaN.
Proof.
  intros Hb. unfold float_floor_div. rewrite is_zero_fin.
  destruct (Z.eqb_spec b 0); [lia|]. unfold fmod, ltz.
  destruct (Z.ltb_spec b 0); [lia|]. reflexivity.
Qed.

Lemma deg_to_zodiac_full_nan : deg_to_zodiac_full NaN = Raise ValueError.
Proof.
  pose proof U_pos as HU. unfold deg_to_zodiac_full.
  rewrite normalize_deg_eq, float_rem_nan by lia. run.
  rewrite py_floordiv_eq, (py_float_eq 30), (of_int_small 30) by lia.
  rewrite float_floor_div_nan by lia. run. reflexivity.
Qed.

(** ** The catalogue on longitudes *)

Lemma longitude_inv x :
  longitude x -> exists a, x = Fin a /\ representable a /\ 0 <= a <= 360 * U.
Proof. destruct x as [a| |]; cbn [longitude]; [|tauto..]. intros []. eauto. Qed.

(** The avayoga degree of two longitudes is a finite float. *)
Lemma avayoga_deg_in s m :
  representable s -> 0 <= s <= 360 * U -> 0 <= m <= 360 * U ->
  exists a, avayoga_deg (Fin s) (Fin m) = Ok (Fin a) /\ representable a.
Proof.
  intros Hrs Hs Hm. pose proof U_pos as HU.
  destruct (add_in s m 0 720) as (c & Hc & Hcb & Hrc); try lia.
  destruct (normalize_deg_cases c Hrc) as (b & Hn & Hrb & Hb & _).
  destruct (complement_sum b Hb) as (a & Ha & Hab & _).
  exists a. split.
  - unfold avayoga_deg. rewrite py_add_eq, Hc.
    unfold normalize_deg in Hn. rewrite Hn. run.
    rewrite py_sub_eq, (py_float_eq 360), (of_int_small 360), Ha by lia.
    reflexivity.
  - pose proof (sub_float (Fin (360 * U)) (Fin b)) as Hf.
    rewrite Ha in Hf. apply Hf; [apply (representable_int 360); lia|assumption].
Qed.

(** Every Sphuta of the catalogue returns a well-formed tuple on
    longitudes: the sums stay far below the overflow threshold. *)
Lemma catalogue_formatted l s m r g d :
  longitude l -> longitude s -> longitude m -> longitude r ->
  longitude g -> longitude d ->
  (exists t, calc_bhrigu_bindu m r = Ok t /\ formatted t)
  /\ (exists t, calc_prana_sphuta l s m = Ok t /\ formatted t)
  /\ (exists t, calc_deha_sphuta l s m = Ok t /\ formatted t)
  /\ (exists t, calc_mrityu_sphuta l s m = Ok t /\ formatted t)
  /\ (exists t, calc_tithi_sphuta s m = Ok t /\ formatted t)
  /\ (exists t, calc_chatusphuta l s m g = Ok t /\ formatted t)
  /\ (exists t, calc_panchasphuta l s m g d = Ok t /\ formatted t)
  /\ (exists t, calc_yoga_sphuta s m = Ok t /\ formatted t)
  /\ (exists t, calc_avayoga_sphuta s m = Ok t /\ formatted t).
Proof.
  intros Hl Hs Hm Hr Hg Hd. pose proof U_pos as HU.
  apply longitude_inv in Hl as (l' & -> & Hrl & Hbl).
  apply longitude_inv in Hs as (s' & -> & Hrs & Hbs).
  apply longitude_inv in Hm as (m' & -> & Hrm & Hbm).
  apply longitude_inv in Hr as (r' & -> & Hrr & Hbr).
  apply longitude_inv in Hg as (g' & -> & Hrg & Hbg).
  apply longitude_inv in Hd as (d' & -> & Hrd & Hbd).
  destruct (add_in m' r' 0 720) as (mr & Hmr & Bmr & _); try lia.
  destruct (half_in mr ltac:(lia)) as (h & Hh & Rh).
  destruct (add_in l' s' 0 720) as (ls & Hls & Bls & _); try lia.
  destruct (add_in ls m' 0 1080) as (lsm & Hlsm & Blsm & Rlsm); try lia.
  destruct (add_in l' m' 0 720) as (lm & Hlm & Blm & _); try lia.
  destruct (sub_in lm s' (-360) 720) as (de & Hde & _ & Rde); try lia.
  destruct (sub_in ls m' (-360) 720) as (mt & Hmt & _ & Rmt); try lia.
  destruct (add_in s' m' 0 720) as (sm & Hsm & _ & Rsm); try lia.
  destruct (add_in lsm g' 0 1440) as (ch & Hch & Bch & Rch); try lia.
  destruct (add_in ch d' 0 1800) as (pa & Hpa & _ & Rpa); try lia.
  destruct (avayoga_deg_in s' m' Hrs Hbs Hbm) as (av & Hav & Rav).
  repeat split.
  - unfold calc_bhrigu_bindu.
    rewrite py_add_eq, py_truediv_eq, (py_float_eq 2), Hmr, Hh. run.
    now apply format_result_formatted.
  - unfold calc_prana_sphuta.
    rewrite (py_add_eq (Fin l')), Hls, py_add_eq, Hlsm.
    now apply format_result_formatted.
  - unfold calc_deha_sphuta. rewrite py_add_eq, py_sub_eq, Hlm, Hde.
    now apply format_result_formatted.
  - unfold calc_mrityu_sphuta. rewrite py_add_eq, py_sub_eq, Hls, Hmt.
    now apply format_result_formatted.
  - unfold calc_tithi_sphuta. rewrite py_add_eq, Hsm.
    now apply format_result_formatted.
  - unfold calc_chatusphuta.
    rewrite (py_add_eq (Fin l')), Hls, (py_add_eq (Fin ls)), Hlsm, py_add_eq, Hch.
    now apply format_result_formatted.
  - unfold calc_panchasphuta.
    rewrite (py_add_eq (Fin l')), Hls, (py_add_eq (Fin ls)), Hlsm,
      (py_add_eq (Fin lsm)), Hch, py_add_eq, Hpa.
    now apply format_result_formatted.
  - unfold calc_yoga_sphuta. rewrite py_add_eq, Hsm.
    now apply format_result_formatted.
  - unfold calc_avayoga_sphuta. rewrite Hav. run.
    now apply format_result_formatted.
Qed.

(** ** Gulika and Mandi *)

(** With the sunrise fixed at 90 degrees, Gulika is [247.5 - 22.5 w] and
    Mandi is [225 - 22.5 w], in units of [2^-41]: no sum is rounded and
    none wraps. *)
Lemma sunrise_points w :
  0 <= w <= 6 ->
  calc_gulika w (of_int 90) = Ok (Fin ((11 - w) * 45 * 2 ^ 39 * FINE))
  /\ calc_mandi w (of_int 90) = Ok (Fin ((10 - w) * 45 * 2 ^ 39 * FINE)).
Proof.
  intros Hw. pose proof FINE_pos. pose proof FINE_U.
  destruct (calc_by_table _ _ w (of_int 90) Hw) as [-> ->].
  assert (Hg : gulika_portion_table w = 7 - w /\ mandi_portion_table w = 6 - w).
  { assert (Hc : w = 0 \/ w = 1 \/ w = 2 \/ w = 3 \/ w = 4 \/ w = 5 \/ w = 6) by lia.
    destruct Hc as [->|[->|[->|[->|[->|[->| ->]]]]]]; split; reflexivity. }
  destruct Hg as [-> ->].
  rewrite !temporal_offset by lia. rewrite (of_int_small 90) by lia.
  rewrite !add_fin.
  replace (90 * U + 45 * (7 - w) * 2 ^ 39 * FINE)
    with ((11 - w) * 45 * 2 ^ 39 * FINE) by lia.
  replace (90 * U + 45 * (6 - w) * 2 ^ 39 * FINE)
    with ((10 - w) * 45 * 2 ^ 39 * FINE) by lia.
  rewrite !round_fine by lia. rewrite !normalize_fine by lia.
  rewrite !Z.mod_small by lia. split; reflexivity.
Qed.

(** The temporal point of a finite sunrise degree is a float from 0 to
    360. *)
Lemma temporal_point_in p s :
  0 <= p <= 8 -> representable s ->
  exists r, temporal_point p (Fin s) = Ok (Fin r) /\ representable r
    /\ 0 <= r <= 360 * U /\ (0 <= s -> r < 360 * U).
Proof.
  intros Hp Hr. pose proof U_pos as HU. pose proof FINE_U. pose proof FINE_pos.
  pose proof TINY_pos.
  rewrite temporal_offset by assumption.
  assert (Hpf : 0 <= p * FINE <= 8 * FINE) by nia.
  destruct (add_small s (45 * p * 2 ^ 39 * FINE) Hr ltac:(lia)) as (v & -> & Hrv & Hv).
  destruct (normalize_deg_cases v Hrv) as (b & Hn & Hrb & Hb & Hiff).
  exists b. split; [assumption|]. split; [assumption|]. split; [assumption|].
  intros Hs. specialize (Hv Hs).
  destruct (Z.eq_dec b (360 * U)) as [He|]; [|lia]. apply Hiff in He. lia.
Qed.

End B64Facts.

(** ** Exact arithmetic *)

Module ExactFacts.
Import Exact.
Local Open Scope Q_scope.

Lemma Qfloor_unique (a : Q) (z : Z) :
  inject_Z z <= a -> a < inject_Z (z + 1) -> Qfloor a = z.
Proof.
  intros Hlo Hhi.
  pose proof (Qfloor_le a) as H1. pose proof (Qlt_floor a) as H2.
  assert (Hz1 : (z < Qfloor a + 1)%Z).
  { rewrite Zlt_Qlt. eapply Qle_lt_trans; eassumption. }
  assert (Hz2 : (Qfloor a < z + 1)%Z).
  { rewrite Zlt_Qlt. eapply Qle_lt_trans; eassumption. }
  lia.
Qed.

Lemma Qfloor_bounds (a : Q) : inject_Z (Qfloor a) <= a < inject_Z (Qfloor a) + 1.
Proof.
  split; [apply Qfloor_le|].
  pose proof (Qlt_floor a) as H. rewrite inject_Z_plus in H. exact H.
Qed.

Lemma Qfloor_sub_int (a : Q) (k : Z) : Qfloor (a - inject_Z k) = (Qfloor a - k)%Z.
Proof.
  pose proof (Qfloor_bounds a) as [H1 H2].
  apply Qfloor_unique.
  - unfold Z.sub. rewrite inject_Z_plus, inject_Z_opp. lra.
  - replace (Qfloor a - k + 1)%Z with (Qfloor a + 1 - k)%Z by lia.
    unfold Z.sub. rewrite !inject_Z_plus, inject_Z_opp. change (inject_Z 1) with 1. lra.
Qed.

Lemma trunc_nonneg (x : Q) : 0 <= x -> trunc x = Qfloor x.
Proof.
  intros Hx. unfold trunc.
  destruct (Qle_bool 0 x) eqn:Hb; [reflexivity|].
  apply Qle_bool_iff in Hx. congruence.
Qed.

Lemma py_int_exact (x : Q) : py_int x = Ok (trunc x).
Proof. reflexivity. Qed.

(** In exact arithmetic the printed degree, minute and second bracket the
    degree within the sign to one second. *)
Lemma dms_of_exact (q : Q) :
  0 <= q ->
  exists d m s,
    dms_of q = Ok (d, m, s)
    /\ d = Qfloor q
    /\ m = Qfloor ((q - inject_Z d) * 60)
    /\ s = Qfloor (((q - inject_Z d) * 60 - inject_Z m) * 60)
    /\ inject_Z d + inject_Z m / 60 + inject_Z s / 3600 <= q
    /\ q < inject_Z d + inject_Z m / 60 + (inject_Z s + 1) / 3600.
Proof.
  intros Hq.
  set (d := Qfloor q).
  set (f := (q - inject_Z d) * 60).
  set (m := Qfloor f).
  set (g := (f - inject_Z m) * 60).
  set (s := Qfloor g).
  pose proof (Qfloor_bounds q) as Hd. fold d in Hd.
  pose proof (Qfloor_bounds f) as Hm. fold m in Hm.
  pose proof (Qfloor_bounds g) as Hs. fold s in Hs.
  assert (Hf : 0 <= f) by (unfold f; lra).
  assert (Hg : 0 <= g) by (unfold g; lra).
  exists d, m, s. repeat split; try reflexivity.
  - unfold dms_of.
    rewrite (py_int_exact q), (trunc_nonneg q Hq). rewrite bind_ok. fold d.
    change (py_mul (py_sub q (py_float d)) (py_float 60)) with f.
    rewrite (py_int_exact f), (trunc_nonneg f Hf). rewrite bind_ok. fold m.
    change (py_mul (py_sub f (py_float m)) (py_float 60)) with g.
    rewrite (py_int_exact g), (trunc_nonneg g Hg). rewrite bind_ok. reflexivity.
  - unfold g, f in *. clearbody d m s. destruct Hd, Hm, Hs.
    unfold Qdiv. change (/ 60) with (1 # 60). change (/ 3600) with (1 # 3600). lra.
  - unfold g, f in *. clearbody d m s. destruct Hd, Hm, Hs.
    unfold Qdiv. change (/ 60) with (1 # 60). change (/ 3600) with (1 # 3600). lra.
Qed.


#[global] Instance rem_comp : Proper (Qeq ==> Qeq ==> Qeq) rem.
Proof.
  intros x x' Hx y y' Hy. unfold rem, floor_quot.
  assert (Hq : x / y == x' / y') by (now rewrite Hx, Hy).
  rewrite (Qfloor_comp _ _ Hq). now rewrite Hx, Hy.
Qed.

(** Reducing a term of a sum first does not change the remainder. *)
Lemma rem_add_rem (x z y : Q) : 0 < y -> rem (rem x y + z) y == rem (x + z) y.
Proof.
  intros Hy. unfold rem at 1 3, floor_quot.
  assert (Hq : (rem x y + z) / y == (x + z) / y - inject_Z (Qfloor (x / y))).
  { unfold rem, floor_quot. field. lra. }
  rewrite (Qfloor_comp _ _ Hq), Qfloor_sub_int.
  unfold rem, floor_quot, Z.sub. rewrite inject_Z_plus, inject_Z_opp. ring.
Qed.


Lemma normalize_deg_exact (x : Q) : normalize_deg x = Ok (rem x 360).
Proof. reflexivity. Qed.

Lemma temporal_point_exact (p : Z) (s : Q) :
  temporal_point p s = Ok (rem (s + inject_Z p * (720 / 8) / 4) 360).
Proof. reflexivity. Qed.

Lemma gulika_ahead_exact (w : Z) (s : Q) :
  (0 <= w <= 6)%Z ->
  exists g m r,
    calc_gulika w s = Ok g /\ calc_mandi w s = Ok m
    /\ normalize_deg (m + (45 # 2)) = Ok r /\ g == r.
Proof.
  intros Hw. destruct (calc_by_table Q Exact.py w s Hw) as [Hg Hm].
  rewrite Hg, Hm, !temporal_point_exact.
  eexists _, _, _.
  split; [reflexivity|]. split; [reflexivity|].
  split; [apply normalize_deg_exact|].
  rewrite rem_add_rem by lra. apply rem_comp; [|reflexivity].
  assert (Hc : (w = 0 \/ w = 1 \/ w = 2 \/ w = 3 \/ w = 4 \/ w = 5 \/ w = 6)%Z) by lia.
  destruct Hc as [->|[->|[->|[->|[->|[->| ->]]]]]];
    cbn [gulika_portion_table mandi_portion_table]; field.
Qed.
Lemma trunc_comp (x y : Q) : x == y -> trunc x = trunc y.
Proof.
  intros Hxy. unfold trunc.
  now rewrite (Qleb_comp 0 0 (Qeq_refl 0) x y Hxy), (Qfloor_comp x y Hxy),
    (Qceiling_comp x y Hxy).
Qed.

Lemma rem_rem (x y : Q) : 0 < y -> rem (rem x y) y == rem x y.
Proof.
  intros Hy. pose proof (rem_add_rem x 0 y Hy) as H.
  now rewrite !Qplus_0_r in H.
Qed.

Lemma pada_mod_collapses_exact (q : Q) : pada_double_mod q = pada_single_mod q.
Proof.
  change (Ok (trunc (rem (rem q (360 / 27)) (360 / 27) / (360 / 108)) + 1)%Z
          = Ok (trunc (rem q (360 / 27) / (360 / 108)) + 1)%Z).
  f_equal. f_equal. apply trunc_comp.
  rewrite rem_rem by reflexivity. reflexivity.
Qed.





End ExactFacts.

(** * The claims *)

Import B64 B64Facts.

(** C1.  [deg_to_zodiac] does not keep its indices in range for every
    degree: on the float -1e-20, [normalize_deg] returns 360.0, the sign
    index [int(360.0 // 30)] is 12 and [ZODIAC_SIGNS[12]] raises
    [IndexError].  ([decode_fin] shows the indices in range on every
    non-negative float below 360.) *)
Theorem C1_deg_to_zodiac_index_error :
  deg_to_zodiac (of_dec (-1) (10 ^ 20)) = Raise IndexError.
Proof. vm_compute. reflexivity. Qed.

(** C2.  [normalize_deg] leaves [0, 360) on the float -1e-20: the
    remainder of [fmod] is moved up by a rounded addition of 360, and
    [-1e-20 + 360] rounds to 360.0. *)
Theorem C2_normalize_deg_reaches_360 :
  normalize_deg (of_dec (-1) (10 ^ 20)) = Ok (of_int 360).
Proof. vm_compute. reflexivity. Qed.

(** C3.  For every sun and moon whose sum is finite, the avayoga degree
    [360 - m] and [m = (sun + moon) % 360] add up to 360.0 as floats; and
    when [m] is 0 the avayoga degree is 360.0, which [format_result]
    decodes as Aries 0°0′0″, Ashwini, pada 1. *)
Theorem C3_avayoga_complement :
  forall (sun moon : B64.t) (m : Z),
    py_mod (py_add sun moon) (py_float 360) = Ok (Fin m) ->
    exists a,
      avayoga_deg sun moon = Ok (Fin a)
      /\ add (Fin a) (Fin m) = of_int 360
      /\ (m = 0 ->
          a = 360 * U
          /\ calc_avayoga_sphuta sun moon
             = Ok ("0°0′0″", "Aries", "Ashwini", 1)%string).
Proof.
  intros sun moon m Hm.
  assert (Hr : 0 <= m <= 360 * U).
  { destruct (normalize_deg_normalized (py_add sun moon)) as (y & Hy & Hn).
    unfold normalize_deg in Hy. rewrite Hm in Hy. injection Hy as <-.
    inversion Hn. assumption. }
  destruct (complement_sum m Hr) as (a & Ha & Hab & Hs).
  assert (Hav : avayoga_deg sun moon = Ok (Fin a)).
  { unfold avayoga_deg. rewrite Hm. run.
    rewrite py_sub_eq, py_float_eq, of_int_small, Ha by lia. reflexivity. }
  exists a. rewrite of_int_small by lia.
  split; [assumption|]. split; [assumption|].
  intros ->. rewrite sub_fin, Z.sub_0_r, (round_int (360 * U) 1 360) in Ha by lia.
  injection Ha as <-. split; [reflexivity|].
  unfold calc_avayoga_sphuta. rewrite Hav. run.
  vm_compute. reflexivity.
Qed.

Lemma C3_avayoga_complement_witness :
  exists a,
    avayoga_deg (of_int 100) (of_int 260) = Ok (Fin a)
    /\ add (Fin a) (Fin 0) = of_int 360
    /\ (0 = 0 ->
        a = 360 * U
        /\ calc_avayoga_sphuta (of_int 100) (of_int 260)
           = Ok ("0°0′0″", "Aries", "Ashwini", 1)%string).
Proof.
  apply (C3_avayoga_complement (of_int 100) (of_int 260) 0).
  vm_compute. reflexivity.
Defined.

(** C4.  Degree 0 decodes to Aries, Ashwini, pada 1, 0°0′0″; every float
    from 0 up to, not including, 30 decodes to Aries; 30.0 decodes to
    Taurus; the float [360 / 27] decodes to Bharani, pada 1. *)
Theorem C4_decode_boundaries :
  forall a : Z,
    0 <= a < 30 * U ->
    format_result (of_int 0) = Ok ("0°0′0″", "Aries", "Ashwini", 1)%string
    /\ (exists dms nk p,
          format_result (Fin a) = Ok (dms_str dms, "Aries", nk, p)%string)
    /\ (exists nk p,
          deg_to_zodiac (Fin a) = Ok ("Aries", nk, p, Fin a)%string)
    /\ format_result (of_int 30) = Ok ("0°0′0″", "Taurus", "Krittika", 1)%string
    /\ (x ← int_truediv 360 27; format_result x)
       = Ok ("13°20′0″", "Aries", "Bharani", 1)%string.
Proof.
  intros a Ha. pose proof U_pos as HU.
  assert (Hb : 0 <= a <= BELOW_360).
  { split; [lia|]. unfold BELOW_360. pose proof U_eq. lia. }
  assert (Hq : a / (30 * U) = 0) by (apply Z.div_small; lia).
  assert (Hmod : a mod (30 * U) = a) by (apply Z.mod_small; lia).
  split; [vm_compute; reflexivity|].
  split; [|split; [|split; vm_compute; reflexivity]].
  - destruct (format_result_fin a Hb) as (dms & zs & nk & v & Hf & _ & Hzs & _).
    rewrite Hq in Hzs.
    assert (zs = "Aries"%string) as -> by (vm_compute in Hzs; congruence).
    exists dms, nk, (v / U + 1). assumption.
  - destruct (deg_to_zodiac_fin a Hb) as (zs & nk & v & Hd & Hzs & _).
    rewrite Hq in Hzs. rewrite Hmod in Hd.
    assert (zs = "Aries"%string) as -> by (vm_compute in Hzs; congruence).
    exists nk, (v / U + 1). assumption.
Qed.

Lemma C4_decode_boundaries_witness :
  format_result (of_int 0) = Ok ("0°0′0″", "Aries", "Ashwini", 1)%string
  /\ (exists dms nk p,
        format_result (Fin (29 * U)) = Ok (dms_str dms, "Aries", nk, p)%string)
  /\ (exists nk p,
        deg_to_zodiac (Fin (29 * U)) = Ok ("Aries", nk, p, Fin (29 * U))%string)
  /\ format_result (of_int 30) = Ok ("0°0′0″", "Taurus", "Krittika", 1)%string
  /\ (x ← int_truediv 360 27; format_result x)
     = Ok ("13°20′0″", "Aries", "Bharani", 1)%string.
Proof.
  apply (C4_decode_boundaries (29 * U)). vm_compute. split; [discriminate|reflexivity].
Defined.

(** C5.  Inside the table, [calc_gulika] and [calc_mandi] are
    [normalize(s + portion * (720 / 8) / 4)] at the tabulated portion,
    whatever the float arithmetic; and [calc_gulika(0, 90)] is 247.5. *)
Theorem C5_temporal_formula :
  forall (F : Type) (PF : PyFloat F) (weekday : Z) (sunrise_deg : F),
    0 <= weekday <= 6 ->
    calc_gulika weekday sunrise_deg
      = temporal_point (gulika_portion_table weekday) sunrise_deg
    /\ calc_mandi weekday sunrise_deg
      = temporal_point (mandi_portion_table weekday) sunrise_deg
    /\ calc_gulika 0 (of_int 90) = Ok (of_dec 2475 10).
Proof.
  intros F PF w s Hw. destruct (calc_by_table F PF w s Hw) as [Hg Hm].
  split; [assumption|]. split; [assumption|]. vm_compute. reflexivity.
Qed.

Lemma C5_temporal_formula_witness :
  calc_gulika 0 (of_int 90) = temporal_point (gulika_portion_table 0) (of_int 90)
  /\ calc_mandi 0 (of_int 90) = temporal_point (mandi_portion_table 0) (of_int 90)
  /\ calc_gulika 0 (of_int 90) = Ok (of_dec 2475 10).
Proof.
  apply (C5_temporal_formula B64.t B64.py 0 (of_int 90)). lia.
Defined.

(** C6.  [calc_gulika] and [calc_mandi] return a degree for every weekday
    from 0 to 6 and every float; for any other weekday the table lookup
    raises [KeyError], the missing-entry failure. *)
Theorem C6_weekday_errors :
  forall (weekday : Z) (sunrise_deg : B64.t),
    (0 <= weekday <= 6 ->
       succeeds (calc_gulika weekday sunrise_deg)
       /\ succeeds (calc_mandi weekday sunrise_deg))
    /\ (~ 0 <= weekday <= 6 ->
       calc_gulika weekday sunrise_deg = Raise (KeyError weekday)
       /\ calc_mandi weekday sunrise_deg = Raise (KeyError weekday)).
Proof.
  intros w s. split.
  - intros Hw. destruct (calc_by_table _ _ w s Hw) as (Hg & Hm).
    rewrite Hg, Hm. split; apply temporal_point_succeeds.
  - intros Hw. unfold calc_gulika, calc_mandi, dict_getitem.
    rewrite gulika_portions_lookup, mandi_portions_lookup.
    assert ((0 <=? w) && (w <=? 6) = false) as ->.
    { destruct (Z.leb_spec 0 w), (Z.leb_spec w 6); try reflexivity; lia. }
    split; reflexivity.
Qed.

Lemma C6_weekday_errors_witness :
  (succeeds (calc_gulika 3 (of_int 90)) /\ succeeds (calc_mandi 3 (of_int 90)))
  /\ (calc_gulika 9 (of_int 90) = Raise (KeyError 9)
      /\ calc_mandi 9 (of_int 90) = Raise (KeyError 9)).
Proof.
  split.
  - apply (proj1 (C6_weekday_errors 3 (of_int 90))). lia.
  - apply (proj2 (C6_weekday_errors 9 (of_int 90))). lia.
Defined.

(** C7.  [calc_yoga_sphuta] and [calc_tithi_sphuta] are the same function
    of sun and moon: both format [sun + moon]. *)
Theorem C7_yoga_is_tithi :
  forall (F : Type) (PF : PyFloat F) (sun moon : F),
    calc_yoga_sphuta sun moon = calc_tithi_sphuta sun moon.
Proof. reflexivity. Qed.

(** C8.  On every degree that reaches line 33, that is on every value
    [normalize_deg] returns, the pada with the double modulo equals the
    pada with a single modulo, so [deg_to_zodiac] is unchanged when the
    second reduction is dropped; over the rationals the two padas agree on
    every degree. *)
Theorem C8_double_modulo_is_single :
  forall (x : B64.t) (q : Q),
    (exists degree,
        normalize_deg x = Ok degree
        /\ pada_double_mod degree = pada_single_mod degree)
    /\ deg_to_zodiac x = deg_to_zodiac_single_mod x
    /\ pada_double_mod q = pada_single_mod q.
Proof.
  intros x q. split; [|split].
  - destruct (normalize_deg_normalized x) as (y & Hy & Hn).
    exists y. split; [assumption|apply pada_mod_collapses; assumption].
  - apply deg_to_zodiac_collapses.
  - apply ExactFacts.pada_mod_collapses_exact.
Qed.

(** C9, as the code has it.  The three integers are floors (truncations
    of non-negative floats) of the expressions the source writes, never
    roundings to nearest: [d = floor(sd)], [m = floor(x)] for the float
    [x = (sd - d) * 60] and [s = floor(y)] for the float
    [y = (x - m) * 60].  The one-second bracket
    [d + m/60 + s/3600 <= sd < d + m/60 + (s+1)/3600] holds when the
    formulas are evaluated exactly; in binary64 each product by 60 is
    itself rounded. *)
Theorem C9_dms_truncation :
  forall (a : Z) (q : Q),
    0 <= a < 30 * U ->
    (0 <= q)%Q ->
    (exists f x g y,
        sub (Fin a) (of_int (a / U)) = Fin f /\ 0 <= f <= U
        /\ mul (Fin f) (of_int 60) = Fin x /\ 0 <= x <= 60 * U
        /\ sub (Fin x) (of_int (x / U)) = Fin g /\ 0 <= g <= U
        /\ mul (Fin g) (of_int 60) = Fin y /\ 0 <= y <= 60 * U
        /\ dms_of (Fin a) = Ok (a / U, x / U, y / U))
    /\ (exists d m s,
        dms_of q = Ok (d, m, s)
        /\ d = Qfloor q
        /\ m = Qfloor ((q - inject_Z d) * 60)
        /\ s = Qfloor (((q - inject_Z d) * 60 - inject_Z m) * 60)
        /\ (inject_Z d + inject_Z m / 60 + inject_Z s / 3600 <= q)%Q
        /\ (q < inject_Z d + inject_Z m / 60 + (inject_Z s + 1) / 3600)%Q).
Proof.
  intros a q Ha Hq. split.
  - apply dms_of_fin. assumption.
  - apply ExactFacts.dms_of_exact. assumption.
Qed.

Lemma C9_dms_truncation_witness :
  (exists f x g y,
      sub (Fin (2 ^ 1073)) (of_int (2 ^ 1073 / U)) = Fin f /\ 0 <= f <= U
      /\ mul (Fin f) (of_int 60) = Fin x /\ 0 <= x <= 60 * U
      /\ sub (Fin x) (of_int (x / U)) = Fin g /\ 0 <= g <= U
      /\ mul (Fin g) (of_int 60) = Fin y /\ 0 <= y <= 60 * U
      /\ dms_of (Fin (2 ^ 1073)) = Ok (2 ^ 1073 / U, x / U, y / U))
  /\ (exists d m s,
      dms_of (1 # 2) = Ok (d, m, s)
      /\ d = Qfloor (1 # 2)
      /\ m = Qfloor (((1 # 2) - inject_Z d) * 60)
      /\ s = Qfloor ((((1 # 2) - inject_Z d) * 60 - inject_Z m) * 60)
      /\ (inject_Z d + inject_Z m / 60 + inject_Z s / 3600 <= 1 # 2)%Q
      /\ ((1 # 2) < inject_Z d + inject_Z m / 60 + (inject_Z s + 1) / 3600)%Q).
Proof.
  apply (C9_dms_truncation (2 ^ 1073) (1 # 2)).
  - vm_compute. split; [discriminate|reflexivity].
  - vm_compute. discriminate.
Defined.

(** C9 as stated fails on the float 0.35, which lies below 21/60: the
    product [0.35 * 60] rounds to 21.0, the code prints 0°21′0″, and
    [d + m/60 + s/3600] exceeds the degree. *)
Lemma C9_counterexample :
  format_result (of_dec 35 100) = Ok ("0°21′0″", "Aries", "Ashwini", 1)%string
  /\ dms_of (of_dec 35 100) = Ok (0, 21, 0)
  /\ 3600 * units (of_dec 35 100) < (3600 * 0 + 60 * 21 + 0) * U.
Proof. vm_compute. repeat split; reflexivity. Qed.

(** C10, as the code has it.  On every weekday the Gulika portion is the
    Mandi portion plus one.  [calc_gulika(w, s)] equals
    [normalize_deg(calc_mandi(w, s) + 22.5)] when the formulas are
    evaluated exactly, and in binary64 whenever the sunrise degree is a
    non-negative multiple of [2^-40] below 360, for then no addition
    rounds. *)
Theorem C10_gulika_ahead_of_mandi :
  forall (weekday j : Z) (s : Q),
    0 <= weekday <= 6 ->
    0 <= j < 360 * 2 ^ 40 ->
    (dict_getitem gulika_portions weekday = Ok (7 - weekday)
     /\ dict_getitem mandi_portions weekday = Ok (6 - weekday))
    /\ (exists g m r,
          calc_gulika weekday s = Ok g /\ calc_mandi weekday s = Ok m
          /\ normalize_deg (m + (45 # 2))%Q = Ok r /\ (g == r)%Q)
    /\ (exists g m,
          calc_gulika weekday (Fin (j * FINE)) = Ok g
          /\ calc_mandi weekday (Fin (j * FINE)) = Ok m
          /\ normalize_deg (add m (of_dec 225 10)) = Ok g).
Proof.
  intros w j s Hw Hj. split; [|split].
  - unfold dict_getitem. rewrite gulika_portions_lookup, mandi_portions_lookup.
    assert ((0 <=? w) && (w <=? 6) = true) as ->.
    { destruct (Z.leb_spec 0 w), (Z.leb_spec w 6); try reflexivity; lia. }
    split; reflexivity.
  - apply ExactFacts.gulika_ahead_exact. assumption.
  - apply gulika_ahead_fine; assumption.
Qed.

Lemma C10_gulika_ahead_of_mandi_witness :
  (dict_getitem gulika_portions 0 = Ok (7 - 0)
   /\ dict_getitem mandi_portions 0 = Ok (6 - 0))
  /\ (exists g m r,
        calc_gulika 0 (90 # 1) = Ok g /\ calc_mandi 0 (90 # 1) = Ok m
        /\ normalize_deg (m + (45 # 2))%Q = Ok r /\ (g == r)%Q)
  /\ (exists g m,
        calc_gulika 0 (Fin (90 * 2 ^ 40 * FINE)) = Ok g
        /\ calc_mandi 0 (Fin (90 * 2 ^ 40 * FINE)) = Ok m
        /\ normalize_deg (add m (of_dec 225 10)) = Ok g).
Proof.
  apply (C10_gulika_ahead_of_mandi 0 (90 * 2 ^ 40) (90 # 1)); lia.
Defined.

(** C10 as stated fails on Monday with sunrise 354.7: [calc_gulika] gives
    152.20000000000005 and [normalize_deg(calc_mandi + 22.5)] gives
    152.2. *)
Lemma C10_counterexample :
  calc_gulika 0 (of_dec 3547 10)
  <> (m ← calc_mandi 0 (of_dec 3547 10); normalize_deg (py_add m (of_dec 225 10))).
Proof. vm_compute. discriminate. Qed.

(** * Further properties of the code

    The theorems below are read off the source: what each function does
    on every float, and how the functions compose. *)

(** ** [normalize_deg] *)

(** X1.  On a finite float [normalize_deg] returns a float from 0 to
    360.  On a non-negative float it is the exact remainder; it returns
    360.0 itself exactly on the negative floats from [-2^-45] up: there,
    and only there, the sum of the negative remainder and 360 rounds to
    360.0. *)
Theorem normalize_deg_float_range :
  forall a : Z,
    representable a ->
    exists b,
      normalize_deg (Fin a) = Ok (Fin b) /\ representable b
      /\ 0 <= b <= 360 * U
      /\ (0 <= a -> b = a mod (360 * U))
      /\ (b = 360 * U <-> - TINY <= a < 0).
Proof.
  intros a Hr.
  destruct (normalize_deg_cases a Hr) as (b & Hn & Hrb & Hb & Hiff).
  exists b. repeat (split; [assumption|]). split; [|assumption].
  intros Ha. rewrite normalize_deg_nonneg in Hn by assumption. congruence.
Qed.

Lemma normalize_deg_float_range_witness :
  exists b,
    normalize_deg (Fin (400 * U)) = Ok (Fin b) /\ representable b
    /\ 0 <= b <= 360 * U
    /\ (0 <= 400 * U -> b = (400 * U) mod (360 * U))
    /\ (b = 360 * U <-> - TINY <= 400 * U < 0).
Proof.
  apply (normalize_deg_float_range (400 * U)).
  apply (representable_int 400). lia.
Defined.

(** X2.  Normalising twice, as [format_result] followed by
    [deg_to_zodiac] does, always lands in [0, 360), and a third
    normalisation changes nothing. *)
Theorem normalize_deg_twice :
  forall a : Z,
    representable a ->
    exists b c,
      normalize_deg (Fin a) = Ok (Fin b)
      /\ normalize_deg (Fin b) = Ok (Fin c)
      /\ 0 <= c < 360 * U
      /\ normalize_deg (Fin c) = Ok (Fin c).
Proof.
  intros a Hr. pose proof U_pos as HU.
  destruct (normalize_deg_cases a Hr) as (b & Hn & Hrb & Hb & _).
  destruct (normalize_deg_pos b Hrb ltac:(lia)) as (Hn2 & Hc & _).
  exists b, (b mod (360 * U)).
  split; [assumption|]. split; [assumption|]. split; [assumption|].
  rewrite normalize_deg_nonneg by lia. rewrite Z.mod_mod by lia. reflexivity.
Qed.

Lemma normalize_deg_twice_witness :
  exists b c,
    normalize_deg (Fin (- 1)) = Ok (Fin b)
    /\ normalize_deg (Fin b) = Ok (Fin c)
    /\ 0 <= c < 360 * U
    /\ normalize_deg (Fin c) = Ok (Fin c).
Proof.
  apply (normalize_deg_twice (- 1)).
  exists (- 1), 0. pose proof HUGE_big. pose proof U_pos.
  repeat split; lia.
Defined.

Section ExactNormalisation.
Local Open Scope Q_scope.


End ExactNormalisation.

(** ** [deg_to_zodiac] *)

(** X4.  On a finite float [deg_to_zodiac] raises [IndexError] exactly
    on the negative floats from [-2^-45] up; on every other finite float
    it returns a sign of [ZODIAC_SIGNS], a nakshatra of [NAKSHATRAS], a
    pada from 1 to 4 and a degree within the sign in [0, 30). *)
Theorem deg_to_zodiac_float :
  forall a : Z,
    representable a ->
    (- TINY <= a < 0 -> deg_to_zodiac (Fin a) = Raise IndexError)
    /\ (~ - TINY <= a < 0 ->
        exists zs nk p sd,
          deg_to_zodiac (Fin a) = Ok (zs, nk, p, Fin sd)
          /\ List.In zs ZODIAC_SIGNS /\ List.In nk NAKSHATRAS
          /\ 1 <= p <= 4 /\ 0 <= sd < 30 * U /\ representable sd).
Proof.
  intros a Hr. pose proof U_pos as HU.
  destruct (normalize_deg_cases a Hr) as (b & Hn & Hrb & Hb & Hiff).
  split; intros Ha.
  - apply Hiff in Ha. subst b. unfold deg_to_zodiac.
    rewrite (deg_to_zodiac_full_360 a Hn). reflexivity.
  - assert (Hlt : 0 <= b < 360 * U).
    { split; [lia|]. destruct (Z.eq_dec b (360 * U)) as [He|]; [|lia].
      apply Hiff in He. contradiction. }
    destruct (deg_to_zodiac_on a b Hn Hrb Hlt) as (zs & nk & p & Hd & Hzs & Hnk & Hp).
    exists zs, nk, p, (b mod (30 * U)).
    repeat (split; [assumption|]).
    split; [apply Z.mod_pos_bound; lia|].
    apply representable_mod; try assumption; try lia.
    apply (representable_int 30). lia.
Qed.

Lemma deg_to_zodiac_float_witness :
  deg_to_zodiac (Fin (- 1)) = Raise IndexError
  /\ exists zs nk p sd,
       deg_to_zodiac (Fin (400 * U)) = Ok (zs, nk, p, Fin sd)
       /\ List.In zs ZODIAC_SIGNS /\ List.In nk NAKSHATRAS
       /\ 1 <= p <= 4 /\ 0 <= sd < 30 * U /\ representable sd.
Proof.
  pose proof HUGE_big. pose proof U_pos. pose proof TINY_pos.
  split.
  - apply (deg_to_zodiac_float (- 1)); [|lia].
    exists (- 1), 0. repeat split; lia.
  - apply (deg_to_zodiac_float (400 * U)); [|lia].
    apply (representable_int 400). lia.
Defined.

(** X5.  Where the decoder returns, thirty times the sign index plus the
    degree within the sign is the normalised degree, exactly: neither the
    floor division nor the remainder by 30 rounds.  The names returned
    are the entries of the two lists at the indices computed. *)
Theorem deg_to_zodiac_decomposition :
  forall a : Z,
    representable a -> ~ - TINY <= a < 0 ->
    exists b r,
      normalize_deg (Fin a) = Ok (Fin b) /\ deg_to_zodiac_full (Fin a) = Ok r
      /\ zodiac_index r * (30 * U) + units (sign_degree r) = b
      /\ 0 <= units (sign_degree r) < 30 * U
      /\ getitem ZODIAC_SIGNS (zodiac_index r) = Ok (zodiac r)
      /\ getitem NAKSHATRAS (nak_index r) = Ok (nakshatra r).
Proof.
  intros a Hr Ha. pose proof U_pos as HU.
  destruct (normalize_deg_cases a Hr) as (b & Hn & Hrb & Hb & Hiff).
  assert (Hlt : 0 <= b < 360 * U).
  { split; [lia|]. destruct (Z.eq_dec b (360 * U)) as [He|]; [|lia].
    apply Hiff in He. contradiction. }
  destruct (decode_float b Hrb Hlt)
    as (r & Hd & Hzi & _ & Hzs & _ & Hnk & _ & Hsd).
  exists b, r. split; [assumption|].
  split; [now rewrite (deg_to_zodiac_full_norm a b Hn Hlt)|].
  rewrite Hsd. cbn [units].
  pose proof (Z.div_mod b (30 * U) ltac:(lia)).
  pose proof (Z.mod_pos_bound b (30 * U) ltac:(lia)).
  repeat split; try assumption; try lia.
Qed.

Lemma deg_to_zodiac_decomposition_witness :
  exists b r,
    normalize_deg (Fin (400 * U)) = Ok (Fin b)
    /\ deg_to_zodiac_full (Fin (400 * U)) = Ok r
    /\ zodiac_index r * (30 * U) + units (sign_degree r) = b
    /\ 0 <= units (sign_degree r) < 30 * U
    /\ getitem ZODIAC_SIGNS (zodiac_index r) = Ok (zodiac r)
    /\ getitem NAKSHATRAS (nak_index r) = Ok (nakshatra r).
Proof.
  pose proof U_pos.
  apply (deg_to_zodiac_decomposition (400 * U)); [|lia].
  apply (representable_int 400). lia.
Defined.

Section ExactDecoder.
Import Exact ExactFacts.
Local Open Scope Q_scope.




End ExactDecoder.

(** ** [format_result] *)

(** X9.  [format_result] returns on every finite float, negative ones
    included: the degrees printed are at most 29, the minutes and the
    seconds at most 59, the sign and the nakshatra are entries of the two
    lists and the pada is from 1 to 4.  Its own normalisation keeps the
    decoder away from the floats on which the decoder fails. *)
Theorem format_result_total :
  forall a : Z,
    representable a ->
    exists d m s zs nk p,
      format_result (Fin a) = Ok (dms_str (d, m, s), zs, nk, p)
      /\ 0 <= d <= 29 /\ 0 <= m <= 59 /\ 0 <= s <= 59
      /\ List.In zs ZODIAC_SIGNS /\ List.In nk NAKSHATRAS /\ 1 <= p <= 4.
Proof.
  intros a Hr.
  destruct (format_result_formatted a Hr) as ([[[dms zs] nk] p] & Hf & Hw).
  destruct Hw as ((d & m & s & -> & Hd & Hm & Hs) & Hzs & Hnk & Hp).
  exists d, m, s, zs, nk, p. auto 10.
Qed.

Lemma format_result_total_witness :
  exists d m s zs nk p,
    format_result (Fin (- 1)) = Ok (dms_str (d, m, s), zs, nk, p)
    /\ 0 <= d <= 29 /\ 0 <= m <= 59 /\ 0 <= s <= 59
    /\ List.In zs ZODIAC_SIGNS /\ List.In nk NAKSHATRAS /\ 1 <= p <= 4.
Proof.
  apply (format_result_total (- 1)).
  exists (- 1), 0. pose proof HUGE_big. pose proof U_pos.
  repeat split; lia.
Defined.

(** X10.  On nan and on the two infinities [deg_to_zodiac] and
    [format_result] raise [ValueError]: the remainder by 360 is nan, and
    [int] of a nan raises. *)
Theorem nonfinite_value_error :
  forall x : B64.t,
    (forall a, x <> Fin a) ->
    deg_to_zodiac x = Raise ValueError /\ format_result x = Raise ValueError.
Proof.
  intros x Hx. pose proof U_pos as HU.
  assert (Hn : normalize_deg x = Ok NaN).
  { destruct x as [a|s|]; [now destruct (Hx a)| |];
      rewrite normalize_deg_eq; [apply float_rem_inf|apply float_rem_nan]; lia. }
  assert (Hd : deg_to_zodiac_full x = Raise ValueError).
  { pose proof deg_to_zodiac_full_nan as Hd. unfold deg_to_zodiac_full in *.
    rewrite normalize_deg_eq, float_rem_nan in Hd by lia.
    rewrite Hn. exact Hd. }
  split.
  - unfold deg_to_zodiac. rewrite Hd. reflexivity.
  - unfold format_result. rewrite Hn. run. unfold deg_to_zodiac.
    rewrite deg_to_zodiac_full_nan. reflexivity.
Qed.

Lemma nonfinite_value_error_witness :
  deg_to_zodiac (Inf false) = Raise ValueError
  /\ format_result (Inf false) = Raise ValueError.
Proof. apply (nonfinite_value_error (Inf false)). discriminate. Defined.

(** ** The catalogue *)

(** X11.  The Sphutas of two bodies do not depend on the order of their
    arguments: float addition is commutative, also on nan and the
    infinities. *)
Theorem sphutas_symmetric :
  forall x y : B64.t,
    calc_bhrigu_bindu x y = calc_bhrigu_bindu y x
    /\ calc_tithi_sphuta x y = calc_tithi_sphuta y x
    /\ calc_yoga_sphuta x y = calc_yoga_sphuta y x
    /\ calc_avayoga_sphuta x y = calc_avayoga_sphuta y x.
Proof.
  intros x y.
  unfold calc_bhrigu_bindu, calc_tithi_sphuta, calc_yoga_sphuta,
    calc_avayoga_sphuta, avayoga_deg.
  rewrite !py_add_eq, (add_comm x y). auto.
Qed.

(** X12.  From Monday to Saturday the Mandi of a day is the Gulika of
    the next day, whatever the float arithmetic: the Mandi table is the
    Gulika table moved by one day. *)
Theorem mandi_next_gulika :
  forall (F : Type) (PF : PyFloat F) (weekday : Z) (sunrise_deg : F),
    0 <= weekday <= 5 ->
    calc_mandi weekday sunrise_deg = calc_gulika (weekday + 1) sunrise_deg.
Proof.
  intros F PF weekday sunrise_deg Hw.
  unfold calc_mandi, calc_gulika, dict_getitem.
  rewrite gulika_portions_lookup, mandi_portions_lookup.
  destruct (Z.leb_spec 0 weekday), (Z.leb_spec weekday 6),
    (Z.leb_spec 0 (weekday + 1)), (Z.leb_spec (weekday + 1) 6); try lia.
  cbn [andb]. replace (7 - (weekday + 1)) with (6 - weekday) by lia.
  reflexivity.
Qed.

Lemma mandi_next_gulika_witness :
  calc_mandi 5 (of_int 90) = calc_gulika (5 + 1) (of_int 90).
Proof. apply (mandi_next_gulika B64.t B64.py 5 (of_int 90)). lia. Defined.

(** X13.  On a weekday of the table and a finite sunrise degree,
    [calc_gulika] and [calc_mandi] return finite floats from 0 to 360,
    below 360 when the sunrise degree is not negative. *)
Theorem temporal_points_in_range :
  forall weekday s : Z,
    0 <= weekday <= 6 -> representable s ->
    exists g m,
      calc_gulika weekday (Fin s) = Ok (Fin g)
      /\ calc_mandi weekday (Fin s) = Ok (Fin m)
      /\ representable g /\ representable m
      /\ 0 <= g <= 360 * U /\ 0 <= m <= 360 * U
      /\ (0 <= s -> g < 360 * U /\ m < 360 * U).
Proof.
  intros w s Hw Hr.
  destruct (calc_by_table _ _ w (Fin s) Hw) as [-> ->].
  assert (Hg : 0 <= gulika_portion_table w <= 8 /\ 0 <= mandi_portion_table w <= 8).
  { assert (Hc : w = 0 \/ w = 1 \/ w = 2 \/ w = 3 \/ w = 4 \/ w = 5 \/ w = 6) by lia.
    destruct Hc as [->|[->|[->|[->|[->|[->| ->]]]]]]; cbn; lia. }
  destruct Hg as [Hg Hm].
  destruct (temporal_point_in _ s Hg Hr) as (g & -> & Hrg & Hgb & Hgs).
  destruct (temporal_point_in _ s Hm Hr) as (m & -> & Hrm & Hmb & Hms).
  exists g, m. repeat (split; [assumption || reflexivity|]). auto.
Qed.

Lemma temporal_points_in_range_witness :
  exists g m,
    calc_gulika 3 (Fin (350 * U)) = Ok (Fin g)
    /\ calc_mandi 3 (Fin (350 * U)) = Ok (Fin m)
    /\ representable g /\ representable m
    /\ 0 <= g <= 360 * U /\ 0 <= m <= 360 * U
    /\ (0 <= 350 * U -> g < 360 * U /\ m < 360 * U).
Proof.
  apply (temporal_points_in_range 3 (350 * U)); [lia|].
  apply (representable_int 350). lia.
Defined.

(** X14.  With the sunrise degree 90.0 that [compute_special_points]
    assumes, Gulika is [247.5 - 22.5 * weekday] degrees and Mandi is 22.5
    degrees behind it; no sum is rounded and none wraps at 360. *)
Theorem sunrise_90_points :
  forall weekday : Z,
    0 <= weekday <= 6 ->
    exists g m,
      calc_gulika weekday (of_int 90) = Ok (Fin g)
      /\ calc_mandi weekday (of_int 90) = Ok (Fin m)
      /\ 2 * g = (495 - 45 * weekday) * U
      /\ 2 * (g - m) = 45 * U
      /\ 90 * U <= m /\ g < 360 * U.
Proof.
  intros w Hw. pose proof FINE_U. pose proof FINE_pos.
  destruct (sunrise_points w Hw) as [-> ->].
  eexists _, _. split; [reflexivity|]. split; [reflexivity|]. nia.
Qed.

Lemma sunrise_90_points_witness :
  exists g m,
    calc_gulika 6 (of_int 90) = Ok (Fin g)
    /\ calc_mandi 6 (of_int 90) = Ok (Fin m)
    /\ 2 * g = (495 - 45 * 6) * U
    /\ 2 * (g - m) = 45 * U
    /\ 90 * U <= m /\ g < 360 * U.
Proof. apply (sunrise_90_points 6). lia. Defined.

(** X15.  On longitudes, finite floats from 0 to 360, every Sphuta of
    the catalogue returns a well-formed tuple; none of the sums
    overflows and none of the results leaves the two lists. *)
Theorem sphuta_catalogue_total :
  forall l s m r g d : B64.t,
    longitude l -> longitude s -> longitude m -> longitude r ->
    longitude g -> longitude d ->
    (exists t, calc_bhrigu_bindu m r = Ok t /\ formatted t)
    /\ (exists t, calc_prana_sphuta l s m = Ok t /\ formatted t)
    /\ (exists t, calc_deha_sphuta l s m = Ok t /\ formatted t)
    /\ (exists t, calc_mrityu_sphuta l s m = Ok t /\ formatted t)
    /\ (exists t, calc_tithi_sphuta s m = Ok t /\ formatted t)
    /\ (exists t, calc_chatusphuta l s m g = Ok t /\ formatted t)
    /\ (exists t, calc_panchasphuta l s m g d = Ok t /\ formatted t)
    /\ (exists t, calc_yoga_sphuta s m = Ok t /\ formatted t)
    /\ (exists t, calc_avayoga_sphuta s m = Ok t /\ formatted t).
Proof. exact catalogue_formatted. Qed.

Lemma sphuta_catalogue_total_witness :
  (exists t, calc_bhrigu_bindu (Fin (360 * U)) (Fin (360 * U)) = Ok t /\ formatted t)
  /\ (exists t, calc_prana_sphuta (Fin (360 * U)) (Fin (360 * U)) (Fin (360 * U)) = Ok t /\ formatted t)
  /\ (exists t, calc_deha_sphuta (Fin (360 * U)) (Fin (360 * U)) (Fin (360 * U)) = Ok t /\ formatted t)
  /\ (exists t, calc_mrityu_sphuta (Fin (360 * U)) (Fin (360 * U)) (Fin (360 * U)) = Ok t /\ formatted t)
  /\ (exists t, calc_tithi_sphuta (Fin (360 * U)) (Fin (360 * U)) = Ok t /\ formatted t)
  /\ (exists t, calc_chatusphuta (Fin (360 * U)) (Fin (360 * U)) (Fin (360 * U)) (Fin (360 * U)) = Ok t /\ formatted t)
  /\ (exists t, calc_panchasphuta (Fin (360 * U)) (Fin (360 * U)) (Fin (360 * U)) (Fin (360 * U)) (Fin (360 * U)) = Ok t /\ formatted t)
  /\ (exists t, calc_yoga_sphuta (Fin (360 * U)) (Fin (360 * U)) = Ok t /\ formatted t)
  /\ (exists t, calc_avayoga_sphuta (Fin (360 * U)) (Fin (360 * U)) = Ok t /\ formatted t).
Proof.
  assert (Hl : longitude (Fin (360 * U))).
  { pose proof U_pos. split; [apply (representable_int 360)|]; lia. }
  apply (sphuta_catalogue_total (Fin (360 * U)) (Fin (360 * U)) (Fin (360 * U)) (Fin (360 * U)) (Fin (360 * U)) (Fin (360 * U))); exact Hl.
Defined.

(** ** [compute_special_points] *)

(** X16.  Whatever the clock says, and for any four longitudes from
    Swiss Ephemeris, [compute_special_points] returns: its dict has the
    eleven keys in the order of the source, and every value is a
    well-formed tuple. *)
Theorem compute_special_points_total :
  forall (weekday : Z) (eph : ephemeris),
    0 <= weekday <= 6 ->
    longitude (lagna eph) -> longitude (degs_Sun eph) ->
    longitude (degs_Moon eph) -> longitude (degs_Rahu eph) ->
    exists out,
      compute_special_points weekday eph = Ok out
      /\ List.map fst out
         = [ "Gulika"; "Mandi"; "Bhrigu Bindu"; "Prana Sphuta"; "Deha Sphuta";
             "Mrityu Sphuta"; "Tithi Sphuta"; "Chatusphuta"; "PanchaSphuta";
             "Yoga Sphuta"; "Avayoga Sphuta" ]%string
      /\ List.Forall formatted (List.map snd out).
Proof.
  intros w eph Hw Hl Hs Hm Hr. pose proof U_pos as HU.
  pose proof FINE_U as HF. pose proof FINE_pos as HFp.
  destruct (sunrise_points w Hw) as [Hg Hd].
  set (g := (11 - w) * 45 * 2 ^ 39) in *.
  set (d := (10 - w) * 45 * 2 ^ 39) in *.
  assert (Hgb : 0 <= g <= 360 * 2 ^ 40) by (unfold g; lia).
  assert (Hdb : 0 <= d <= 360 * 2 ^ 40) by (unfold d; lia).
  assert (Hrg : representable (g * FINE)) by (apply representable_fine; lia).
  assert (Hrd : representable (d * FINE)) by (apply representable_fine; lia).
  assert (Hlg : longitude (Fin (g * FINE))) by (split; [assumption|nia]).
  assert (Hld : longitude (Fin (d * FINE))) by (split; [assumption|nia]).
  destruct (format_result_formatted _ Hrg) as (tg & Htg & Hfg).
  destruct (format_result_formatted _ Hrd) as (td & Htd & Hfd).
  destruct (catalogue_formatted _ _ _ _ _ _ Hl Hs Hm Hr Hlg Hld)
    as ((t1 & H1 & F1) & (t2 & H2 & F2) & (t3 & H3 & F3) & (t4 & H4 & F4)
        & (t5 & H5 & F5) & (t6 & H6 & F6) & (t7 & H7 & F7) & (t8 & H8 & F8)
        & (t9 & H9 & F9)).
  eexists. split.
  - unfold compute_special_points. rewrite (py_float_eq 90), Hg. run.
    rewrite Hd. run. rewrite Htg. run. rewrite Htd. run.
    rewrite H1. run. rewrite H2. run. rewrite H3. run. rewrite H4. run.
    rewrite H5. run. rewrite H6. run. rewrite H7. run. rewrite H8. run.
    rewrite H9. run. reflexivity.
  - split; [reflexivity|]. cbn [List.map snd]. repeat constructor; assumption.
Qed.

Lemma compute_special_points_total_witness :
  exists out,
    compute_special_points 2
      {| lagna := Fin (10 * U); degs_Sun := Fin (100 * U);
         degs_Moon := Fin (200 * U); degs_Rahu := Fin (300 * U) |} = Ok out
    /\ List.map fst out
       = [ "Gulika"; "Mandi"; "Bhrigu Bindu"; "Prana Sphuta"; "Deha Sphuta";
           "Mrityu Sphuta"; "Tithi Sphuta"; "Chatusphuta"; "PanchaSphuta";
           "Yoga Sphuta"; "Avayoga Sphuta" ]%string
    /\ List.Forall formatted (List.map snd out).
Proof.
  pose proof U_pos.
  apply (compute_special_points_total 2); [lia|..]; (split; [|cbn; lia]).
  - apply (representable_int 10). lia.
  - apply (representable_int 100). lia.
  - apply (representable_int 200). lia.
  - apply (representable_int 300). lia.
Defined.
